(** * rbac.js, examples/mongo/app/middleware.js

    A shallow embedding of the Express middleware chain of the mongo example:
    [init], [authenticate], [can], [processArticleParam], [processRoleParam]
    and [processUserParam], together with the collaborators they call
    (mongoose queries, the token decoder, the permission getter of a user
    document and the decision engine [authorize]).

    A middleware is a computation over the request object and a chronological
    trace of the calls it makes to its collaborators; JavaScript exceptions
    (thrown values and rejected promises that are awaited) are the [Throw]
    completion, and [try]/[catch] is [try_catch]. *)

From Stdlib Require Import Ascii String.
From stdpp Require Import gmap strings list fin_maps sorting.

Set Warnings "-register-all".

Open Scope string_scope.
Open Scope list_scope.

(** ** JavaScript values and documents *)

Inductive Value : Type :=
  | VUndefined
  | VNull
  | VBool (b : bool)
  | VStr (s : string)
  | VArr (l : list Value)
  | VObj (o : gmap string Value).

(** A mongoose document, and any plain object, is a map from property names
    to values. *)
Abbreviation Doc := (gmap string Value).

Inductive Exn : Type :=
  | TypeError (what : string)
  | DocumentNotFoundError
  | LookupError (what : string)
  | TokenError (what : string)
  | PermissionError (what : string)
  | PolicyMissing (entity : string)
  | ActionMissing (entity action : string)
  | PredicateError (what : string).

Inductive Completion (A : Type) : Type :=
  | Normal (a : A)
  | Throw (e : Exn).

Arguments Normal {A} a.
Arguments Throw {A} e.

(** ** The persistence layer: models, filters and queries *)

Inductive Model : Type := Role | User | Article.

(** The filter object of [findOne]: one property compared with one value;
    [None] is a property whose value is [undefined]. *)
Record Filter : Type := mkFilter { f_field : string; f_value : option string }.

(** The stored collections, and the lookups that fail (a value that cannot
    be cast to an id, a lost connection). *)
Record Database : Type := mkDatabase {
  collection : Model -> list Doc;
  fault : Model -> Filter -> option Exn
}.

(** A query as the chain [Model.findOne(..).populate(..).orFail()] builds it. *)
Record Query : Type := mkQuery {
  q_model : Model;
  q_filter : Filter;
  q_populate : list (string * option string);
  q_orFail : bool
}.

Definition findOne (m : Model) (f : Filter) : Query :=
  {| q_model := m; q_filter := f; q_populate := []; q_orFail := false |}.

Definition populate (path : string) (select : option string) (q : Query) : Query :=
  {| q_model := q_model q; q_filter := q_filter q;
     q_populate := q_populate q ++ [(path, select)]; q_orFail := q_orFail q |}.

Definition orFail (q : Query) : Query :=
  {| q_model := q_model q; q_filter := q_filter q;
     q_populate := q_populate q; q_orFail := true |}.

(** Equality match of a filter against a document. An [undefined] value is
    sent as [null], which matches a missing or null property. *)
Definition matches (f : Filter) (d : Doc) : bool :=
  match f_value f, d !! f_field f with
  | Some s, Some (VStr s') => bool_decide (s = s')
  | None, None => true
  | None, Some VNull => true
  | None, Some VUndefined => true
  | _, _ => false
  end.

Definition lookup_doc (db : Database) (m : Model) (f : Filter) : Completion (option Doc) :=
  match fault db m f with
  | Some e => Throw e
  | None => Normal (List.find (matches f) (collection db m))
  end.

(** Modelled from the spec: the schemas of ./models, which are not part of
    the sources at hand. An article refers to its owner, a user, and a user
    refers to its roles. *)
Definition ref_model (m : Model) (path : string) : option Model :=
  match m with
  | Article => if bool_decide (path = "owner") then Some User else None
  | User => if bool_decide (path = "roles") then Some Role else None
  | Role => None
  end.

(** The field selection of [populate]: ["-f"] excludes property [f], a bare
    name keeps that property and the id, no selection keeps everything. *)
Definition apply_select (select : option string) (d : Doc) : Doc :=
  match select with
  | None => d
  | Some (String "-"%char f) => delete f d
  | Some f =>
      match d !! f, d !! "_id" with
      | Some v, Some i => <[f := v]> (<["_id" := i]> ∅)
      | Some v, None => <[f := v]> ∅
      | None, Some i => <["_id" := i]> ∅
      | None, None => ∅
      end
  end.

Definition by_id (id : string) : Filter := {| f_field := "_id"; f_value := Some id |}.

(** One referenced document: the selected document, or [null] when the
    reference dangles. *)
Definition populate_ref (db : Database) (m : Model) (select : option string)
    (id : string) : Completion Value :=
  match lookup_doc db m (by_id id) with
  | Throw e => Throw e
  | Normal None => Normal VNull
  | Normal (Some r) => Normal (VObj (apply_select select r))
  end.

(** An array of references: the documents found, in order; dangling
    references are dropped. *)
Fixpoint populate_refs (db : Database) (m : Model) (select : option string)
    (ids : list Value) : Completion (list Value) :=
  match ids with
  | [] => Normal []
  | VStr id :: rest =>
      match populate_ref db m select id with
      | Throw e => Throw e
      | Normal v =>
          match populate_refs db m select rest with
          | Throw e => Throw e
          | Normal vs =>
              match v with
              | VNull => Normal vs
              | _ => Normal (v :: vs)
              end
          end
      end
  | _ :: rest => populate_refs db m select rest
  end.

Definition populate_path (db : Database) (m : Model) (d : Doc)
    (p : string * option string) : Completion Doc :=
  match ref_model m p.1 with
  | None => Normal d
  | Some m' =>
      match d !! p.1 with
      | Some (VStr id) =>
          match populate_ref db m' p.2 id with
          | Throw e => Throw e
          | Normal v => Normal (<[p.1 := v]> d)
          end
      | Some (VArr ids) =>
          match populate_refs db m' p.2 ids with
          | Throw e => Throw e
          | Normal vs => Normal (<[p.1 := VArr vs]> d)
          end
      | _ => Normal d
      end
  end.

Fixpoint populate_all (db : Database) (m : Model) (d : Doc)
    (ps : list (string * option string)) : Completion Doc :=
  match ps with
  | [] => Normal d
  | p :: rest =>
      match populate_path db m d p with
      | Throw e => Throw e
      | Normal d' => populate_all db m d' rest
      end
  end.

(** What awaiting a query settles to. *)
Definition exec (db : Database) (q : Query) : Completion Value :=
  match lookup_doc db (q_model q) (q_filter q) with
  | Throw e => Throw e
  | Normal None => if q_orFail q then Throw DocumentNotFoundError else Normal VNull
  | Normal (Some d) =>
      match populate_all db (q_model q) d (q_populate q) with
      | Throw e => Throw e
      | Normal d' => Normal (VObj d')
      end
  end.

(** ** The request, the trace and the middleware monad *)

Record Request : Type := mkRequest {
  url : string;
  headers : gmap string string;
  params : gmap string string;
  user : Value;
  context : option Doc
}.

Definition set_user (v : Value) (r : Request) : Request :=
  {| url := url r; headers := headers r; params := params r;
     user := v; context := context r |}.

Definition set_context (c : option Doc) (r : Request) : Request :=
  {| url := url r; headers := headers r; params := params r;
     user := user r; context := c |}.

Inductive Event : Type :=
  | EvDecodeAuthToken
  | EvQuery (q : Query)
  | EvPermissions
  | EvAuthorize (action entity : string)
  | EvConsoleLog (e : Exn)
  | EvNext
  | EvStatus (code : nat)
  | EvJson (message : string).

Record St : Type := mkSt { req : Request; trace : list Event }.

Definition M (A : Type) : Type := St -> Completion A * St.

Definition ret {A} (a : A) : M A := fun s => (Normal a, s).

Definition bind {A B} (m : M A) (k : A -> M B) : M B :=
  fun s =>
    match m s with
    | (Normal a, s') => k a s'
    | (Throw e, s') => (Throw e, s')
    end.

Definition try_catch {A} (body : M A) (handler : Exn -> M A) : M A :=
  fun s =>
    match body s with
    | (Normal a, s') => (Normal a, s')
    | (Throw e, s') => handler e s'
    end.

Definition lift {A} (c : Completion A) : M A := fun s => (c, s).

Definition emit (e : Event) : M unit :=
  fun s => (Normal tt, {| req := req s; trace := trace s ++ [e] |}).

Definition get_req : M Request := fun s => (Normal (req s), s).

Definition modify_req (f : Request -> Request) : M unit :=
  fun s => (Normal tt, {| req := f (req s); trace := trace s |}).

Declare Scope mw_scope.
Delimit Scope mw_scope with mw.
Notation "x <- c ;; k" := (bind c (fun x => k))
  (at level 100, c at next level, right associativity) : mw_scope.
Notation "c ;;; k" := (bind c (fun _ => k))
  (at level 100, right associativity) : mw_scope.

(** How a middleware hands over: it called [next()], or it sent a response. *)
Inductive Signal : Type :=
  | Continue
  | Terminate (status : nat) (message : string).

Definition Stage : Type := M Signal.

(** [next()]: control passes to the handler registered next, which answers
    on its own account; it is not taken to throw back into the caller. *)
Definition next : Stage := (emit EvNext ;;; ret Continue)%mw.

(** [res.status(code).json({ message })] *)
Definition respond (code : nat) (message : string) : Stage :=
  (emit (EvStatus code) ;;; emit (EvJson message) ;;; ret (Terminate code message))%mw.

(** [await q], for a mongoose query [q] *)
Definition await_query (db : Database) (q : Query) : M Value :=
  (emit (EvQuery q) ;;; lift (exec db q))%mw.

(** ** The decision engine *)

Inductive DecisionOutcome : Type := Allowed | Denied | PolicyNotFound | ActionNotFound.

Abbreviation Predicate := (Value -> Request -> Completion bool).

Abbreviation Policy := (gmap string Predicate).
Abbreviation Registry := (gmap string (gmap string Predicate)).

(** Modelled from the spec: the engine [authorize] of ../../../lib, which is
    not part of the sources at hand. Section 4.2: look the entity up in the
    registry (absent: [PolicyNotFound]), look the action up in the record
    found (absent: [ActionNotFound]), invoke the predicate with the
    permissions and the context; its boolean maps to [Allowed] or [Denied],
    and only a fault inside the predicate propagates. *)
Definition authorize (action entity : string) (permissions : Value)
    (registry : Registry) (ctx : Request) : Completion DecisionOutcome :=
  match registry !! entity with
  | None => Normal PolicyNotFound
  | Some policy =>
      match policy !! action with
      | None => Normal ActionNotFound
      | Some predicate =>
          match predicate permissions ctx with
          | Normal true => Normal Allowed
          | Normal false => Normal Denied
          | Throw e => Throw e
          end
      end
  end.

(** The completion of the call expression [authorize(..)] as [can] uses it:
    the value is tested with [!], and the handler of [can] is there for the
    "two exceptions ... missing policy or missing policy action". *)
Definition authorize_completion (action entity : string)
    (r : Completion DecisionOutcome) : Completion bool :=
  match r with
  | Normal Allowed => Normal true
  | Normal Denied => Normal false
  | Normal PolicyNotFound => Throw (PolicyMissing entity)
  | Normal ActionNotFound => Throw (ActionMissing entity action)
  | Throw e => Throw e
  end.


(** ** The middleware *)

Definition msg_unauthenticated : string := "Sorry :( Log in and try again.".
Definition msg_forbidden : string := "You are not authorized to perform this action.".
Definition msg_failure : string := "Sorry :( Something bad happened.".
Definition msg_no_article : string := "The article does not exist.".
Definition msg_no_role : string := "The role does not exist.".
Definition msg_no_user : string := "The user does not exist.".

(** [init]: [req.context = {}; return next();] *)
Definition init : Stage :=
  (modify_req (set_context (Some ∅)) ;;; next)%mw.

(** [req.context.<key> = v]: a [TypeError] when [req.context] is undefined. *)
Definition assign_context (key : string) (v : Value) : M unit :=
  (r <- get_req ;;
   match context r with
   | None => lift (Throw (TypeError "req.context is undefined"))
   | Some c => modify_req (set_context (Some (<[key := v]> c)))
   end)%mw.

Section Middleware.

(** The collaborators that ./utils, ./policies and ./models provide. *)
Variable db : Database.
Variable decodeAuthToken : Request -> Completion string.
Variable permissions : Doc -> Completion Value.
Variable policies : Registry.

(** [decodeAuthToken(req)], destructured to its [username]. *)
Definition call_decodeAuthToken : M string :=
  (emit EvDecodeAuthToken ;;; r <- get_req ;; lift (decodeAuthToken r))%mw.

(** [await req.user.permissions]: reading a property of [undefined] or
    [null] is a [TypeError]; on a document it is the getter of the model;
    any other value has no such property. *)
Definition await_permissions : M Value :=
  (r <- get_req ;;
   match user r with
   | VUndefined => lift (Throw (TypeError "req.user is undefined"))
   | VNull => lift (Throw (TypeError "req.user is null"))
   | VObj u => emit EvPermissions ;;; lift (permissions u)
   | _ => emit EvPermissions ;;; ret VUndefined
   end)%mw.

(** [authorize(action, entity, userPermissions, policies, req)] *)
Definition call_authorize (action entity : string) (perms : Value) : M bool :=
  (emit (EvAuthorize action entity) ;;;
   r <- get_req ;;
   lift (authorize_completion action entity
           (authorize action entity perms policies r)))%mw.

Definition is_public (u : string) : bool :=
  bool_decide (u = "/") || bool_decide (u = "/auth/login").

Definition authenticate : Stage :=
  (r <- get_req ;;
   if is_public (url r) then next
   else
     try_catch
       (username <- call_decodeAuthToken ;;
        u <- await_query db
               (findOne User {| f_field := "username"; f_value := Some username |}) ;;
        modify_req (set_user u) ;;;
        next)
       (fun e => respond 401 msg_unauthenticated))%mw.

Definition can (action entity : string) : Stage :=
  try_catch
    (userPermissions <- await_permissions ;;
     ok <- call_authorize action entity userPermissions ;;
     if negb ok then respond 403 msg_forbidden else next)%mw
    (fun e => (emit (EvConsoleLog e) ;;; respond 500 msg_failure)%mw).

(** [{ _id: id }] with [const { id } = req.params] *)
Definition id_filter (r : Request) : Filter :=
  {| f_field := "_id"; f_value := params r !! "id" |}.

Definition processArticleParam : Stage :=
  try_catch
    (r <- get_req ;;
     a <- await_query db
            (orFail (populate "owner" (Some "-password")
                       (findOne Article (id_filter r)))) ;;
     assign_context "article" a ;;;
     next)%mw
    (fun e => respond 404 msg_no_article).

Definition processRoleParam : Stage :=
  try_catch
    (r <- get_req ;;
     a <- await_query db (orFail (findOne Role (id_filter r))) ;;
     assign_context "role" a ;;;
     next)%mw
    (fun e => respond 404 msg_no_role).

Definition processUserParam : Stage :=
  try_catch
    (r <- get_req ;;
     a <- await_query db
            (orFail (populate "roles" None (findOne User (id_filter r)))) ;;
     assign_context "user" a ;;;
     next)%mw
    (fun e => respond 404 msg_no_user).

(** Express runs the handlers in registration order; a handler that does
    not call [next()] ends the chain. *)
Fixpoint run_pipeline (stages : list Stage) (s : St) : Completion Signal * St :=
  match stages with
  | [] => (Normal Continue, s)
  | stage :: rest =>
      match stage s with
      | (Normal Continue, s') => run_pipeline rest s'
      | r => r
      end
  end.

End Middleware.

(** A middleware run on a request, from an empty trace. *)
Definition start (r : Request) : St := {| req := r; trace := [] |}.

(** ** Shapes shared by the stages *)

(** The query of [authenticate]: [User.findOne({ username })]. *)
Definition user_query (username : string) : Query :=
  findOne User {| f_field := "username"; f_value := Some username |}.

(** The queries of the three resolution stages. *)
Definition article_query (r : Request) : Query :=
  orFail (populate "owner" (Some "-password") (findOne Article (id_filter r))).

Definition role_query (r : Request) : Query :=
  orFail (findOne Role (id_filter r)).

Definition user_by_id_query (r : Request) : Query :=
  orFail (populate "roles" None (findOne User (id_filter r))).

(** The three resolution stages differ in the query, the key and the
    message only. *)
Definition resolve (db : Database) (query : Request -> Query)
    (key message : string) : Stage :=
  try_catch
    (r <- get_req ;;
     a <- await_query db (query r) ;;
     assign_context key a ;;;
     next)%mw
    (fun e => respond 404 message).

(** What [can] does with the completion of the engine, once the permissions
    are there. *)
Definition can_result (action entity : string) (s : St)
    (c : Completion bool) : Completion Signal * St :=
  match c with
  | Normal true =>
      (Normal Continue,
       {| req := req s;
          trace := trace s ++ [EvPermissions; EvAuthorize action entity; EvNext] |})
  | Normal false =>
      (Normal (Terminate 403 msg_forbidden),
       {| req := req s;
          trace := trace s ++ [EvPermissions; EvAuthorize action entity;
                               EvStatus 403; EvJson msg_forbidden] |})
  | Throw e =>
      (Normal (Terminate 500 msg_failure),
       {| req := req s;
          trace := trace s ++ [EvPermissions; EvAuthorize action entity;
                               EvConsoleLog e; EvStatus 500; EvJson msg_failure] |})
  end.

(** The keys of the request context; none while [req.context] is undefined. *)
Definition context_keys (r : Request) : gset string :=
  match context r with
  | None => ∅
  | Some c => dom c
  end.

(** [req.context[k]], when there is a context and it has the key. *)
Definition context_get (r : Request) (k : string) : option Value :=
  match context r with
  | None => None
  | Some c => c !! k
  end.

(** The documents an array of references stands for: the selected documents
    of the references that resolve, in order. *)
Definition referenced (db : Database) (m : Model) (select : option string)
    (ids : list Value) : list Value :=
  omap (fun v =>
          match v with
          | VStr id =>
              match List.find (matches (by_id id)) (collection db m) with
              | Some r => Some (VObj (apply_select select r))
              | None => None
              end
          | _ => None
          end) ids.

(** Every value of the context of [r] is still there in [r']. *)
Definition keeps (r r' : Request) : Prop :=
  forall k v, context_get r k = Some v -> context_get r' k = Some v.

(** The states a pipeline goes through: the state each stage that ran
    has left. *)
Fixpoint run_states (stages : list Stage) (s : St) : list St :=
  match stages with
  | [] => []
  | stage :: rest =>
      match stage s with
      | (Normal Continue, s') => s' :: run_states rest s'
      | (_, s') => [s']
      end
  end.

(** The events a run has added to the trace it started from. *)
Definition emitted (s : St) (r : Completion Signal * St) : list Event :=
  drop (length (trace s)) (trace r.2).

(** ** A small world to run the middleware in *)

Module Sample.

Definition admin_role : Doc :=
  <["_id" := VStr "r1"]> (<["name" := VStr "admin"]>
    (<["permissions" := VArr [VStr "article.edit"]]> ∅)).

Definition alice : Doc :=
  <["_id" := VStr "u1"]> (<["username" := VStr "alice"]>
    (<["password" := VStr "s3cret"]> (<["roles" := VArr [VStr "r1"; VStr "r9"]]> ∅))).

Definition hello : Doc :=
  <["_id" := VStr "a1"]> (<["title" := VStr "Hello"]> (<["owner" := VStr "u1"]> ∅)).

(** The id ["bad"] cannot be cast, every other lookup goes through. *)
Definition db : Database :=
  {| collection := fun m =>
       match m with
       | Role => [admin_role]
       | User => [alice]
       | Article => [hello]
       end;
     fault := fun _ f =>
       if bool_decide (f_value f = Some "bad")
       then Some (LookupError "CastError") else None |}.

(** The token is the user name itself, carried by the authorization
    header. *)
Definition decode (r : Request) : Completion string :=
  match headers r !! "authorization" with
  | Some t => Normal t
  | None => Throw (TokenError "jwt must be provided")
  end.

(** The permissions of a user are read off its roles. *)
Definition permissions_of (u : Doc) : Completion Value :=
  match u !! "roles" with
  | Some v => Normal v
  | None => Throw (PermissionError "no roles")
  end.

Definition article_policy : gmap string Predicate :=
  <["view" := fun _ _ => Normal true]>
    (<["edit" := fun perms _ =>
         Normal (match perms with VArr (_ :: _) => true | _ => false end)]>
       (<["delete" := fun _ _ => Normal false]>
          (<["audit" := fun _ _ => Throw (PredicateError "boom")]> ∅))).

Definition registry : gmap string (gmap string Predicate) :=
  <["article" := article_policy]> ∅.

Definition request (u : string) (token : option string) (id : option string) : Request :=
  {| url := u;
     headers := match token with Some t => <["authorization" := t]> ∅ | None => ∅ end;
     params := match id with Some i => <["id" := i]> ∅ | None => ∅ end;
     user := VUndefined;
     context := None |}.

(** A request of alice, after [authenticate] has attached her document. *)
Definition alice_at (u : string) (id : option string) : St :=
  start (set_user (VObj alice) (request u (Some "alice") id)).

(** The same, after [init] has created the context. *)
Definition ready (u : string) (id : option string) : St :=
  start (set_context (Some ∅) (set_user (VObj alice) (request u (Some "alice") id))).

(** A database in which a role and a user happen to share the id ["u1"]. *)
Definition twin_db : Database :=
  {| collection := fun m =>
       match m with
       | Role => [<["_id" := VStr "u1"]> (<["name" := VStr "owner"]> ∅)]
       | User => [alice]
       | Article => [hello]
       end;
     fault := fun _ _ => None |}.

End Sample.

(** ** Observations on a run *)

(** The events by which a handler hands over: [next()] and the two calls of
    [res.status(..).json(..)]. *)
Definition is_handover (e : Event) : bool :=
  match e with
  | EvNext | EvStatus _ | EvJson _ => true
  | _ => false
  end.

Definition is_log (e : Event) : bool :=
  match e with
  | EvConsoleLog _ => true
  | _ => false
  end.

Definition is_engine_call (e : Event) : bool :=
  match e with
  | EvAuthorize _ _ => true
  | _ => false
  end.

Definition is_query (e : Event) : bool :=
  match e with
  | EvQuery _ => true
  | _ => false
  end.

(** A run that hands over once, as its last act: it ends with [next()] and
    signals [Continue], or it ends with one response and signals it. *)
Definition hands_over (s : St) (r : Completion Signal * St) : Prop :=
  exists pre,
    Forall (fun e => is_handover e = false) pre
    /\ ((r.1 = Normal Continue /\ emitted s r = pre ++ [EvNext])
        \/ (exists code message,
              r.1 = Normal (Terminate code message)
              /\ emitted s r = pre ++ [EvStatus code; EvJson message])).

(** What [await req.user.permissions] settles to on a request. *)
Definition permissions_read (permissions : Doc -> Completion Value)
    (r : Request) : Completion Value :=
  match user r with
  | VUndefined => Throw (TypeError "req.user is undefined")
  | VNull => Throw (TypeError "req.user is null")
  | VObj u => permissions u
  | _ => Normal VUndefined
  end.

(** The handlers of the module. *)
Inductive middleware (db : Database) (decode : Request -> Completion string)
    (permissions : Doc -> Completion Value) (policies : Registry) : Stage -> Prop :=
  | mw_init : middleware db decode permissions policies init
  | mw_authenticate :
      middleware db decode permissions policies (authenticate db decode)
  | mw_can action entity :
      middleware db decode permissions policies
        (can permissions policies action entity)
  | mw_article : middleware db decode permissions policies (processArticleParam db)
  | mw_role : middleware db decode permissions policies (processRoleParam db)
  | mw_user : middleware db decode permissions policies (processUserParam db).

(** What the client has sent: the target, the headers and the route
    parameters. *)
Definition same_target (r r' : Request) : Prop :=
  url r' = url r /\ headers r' = headers r /\ params r' = params r.

(** A query that is built from the route parameters of the request alone. *)
Definition reads_params_only (query : Request -> Query) : Prop :=
  forall r r', params r' = params r -> query r' = query r.

(** * Properties *)

(** ** Running a stage *)

Ltac mw_unfold :=
  unfold next, respond, await_query, call_decodeAuthToken, await_permissions,
    call_authorize, assign_context, try_catch, bind, ret, lift, emit, get_req,
    modify_req in *.

Lemma is_public_spec (u : string) :
  is_public u = true <-> u = "/" \/ u = "/auth/login".
Proof.
  unfold is_public. rewrite orb_true_iff, !bool_decide_eq_true. tauto.
Qed.

Lemma emitted_app (s : St) (c : Completion Signal) (r : Request) (evs : list Event) :
  emitted s (c, {| req := r; trace := trace s ++ evs |}) = evs.
Proof. unfold emitted; simpl. by rewrite drop_app_length. Qed.

(** The public paths need no token. *)
Lemma authenticate_public db decode (s : St) :
  is_public (url (req s)) = true ->
  authenticate db decode s
  = (Normal Continue, {| req := req s; trace := trace s ++ [EvNext] |}).
Proof.
  intros Hp. unfold authenticate. mw_unfold. by rewrite Hp.
Qed.

(** A token that does not decode ends the request. *)
Lemma authenticate_no_token db decode (s : St) e :
  is_public (url (req s)) = false ->
  decode (req s) = Throw e ->
  authenticate db decode s
  = (Normal (Terminate 401 msg_unauthenticated),
     {| req := req s;
        trace := trace s ++ [EvDecodeAuthToken; EvStatus 401; EvJson msg_unauthenticated] |}).
Proof.
  intros Hp Hd. unfold authenticate. mw_unfold. rewrite Hp. simpl.
  rewrite Hd. simpl. by rewrite <- !app_assoc.
Qed.

(** A lookup that rejects ends the request. *)
Lemma authenticate_lookup_error db decode (s : St) username e :
  is_public (url (req s)) = false ->
  decode (req s) = Normal username ->
  exec db (user_query username) = Throw e ->
  authenticate db decode s
  = (Normal (Terminate 401 msg_unauthenticated),
     {| req := req s;
        trace := trace s ++ [EvDecodeAuthToken; EvQuery (user_query username);
                             EvStatus 401; EvJson msg_unauthenticated] |}).
Proof.
  intros Hp Hd Hq. unfold authenticate. mw_unfold. rewrite Hp. simpl.
  rewrite Hd. simpl. fold (user_query username). rewrite Hq. simpl.
  by rewrite <- !app_assoc.
Qed.

(** A lookup that settles, with the document or with [null], continues. *)
Lemma authenticate_lookup_settled db decode (s : St) username v :
  is_public (url (req s)) = false ->
  decode (req s) = Normal username ->
  exec db (user_query username) = Normal v ->
  authenticate db decode s
  = (Normal Continue,
     {| req := set_user v (req s);
        trace := trace s ++ [EvDecodeAuthToken; EvQuery (user_query username); EvNext] |}).
Proof.
  intros Hp Hd Hq. unfold authenticate. mw_unfold. rewrite Hp. simpl.
  rewrite Hd. simpl. fold (user_query username). rewrite Hq. simpl.
  by rewrite <- !app_assoc.
Qed.

(** Without [orFail], a user name that matches no document settles to
    [null]. *)
Lemma user_query_no_match db username :
  fault db User {| f_field := "username"; f_value := Some username |} = None ->
  List.find (matches {| f_field := "username"; f_value := Some username |})
    (collection db User) = None ->
  exec db (user_query username) = Normal VNull.
Proof.
  intros Hf Hn. unfold exec, user_query, findOne, lookup_doc; simpl.
  by rewrite Hf, Hn.
Qed.

(** A caller that is [null] or missing: reading its permissions throws, and
    the handler of [can] answers 500. *)
Lemma can_user_null permissions policies action entity (s : St) :
  user (req s) = VNull ->
  can permissions policies action entity s
  = (Normal (Terminate 500 msg_failure),
     {| req := req s;
        trace := trace s ++ [EvConsoleLog (TypeError "req.user is null");
                             EvStatus 500; EvJson msg_failure] |}).
Proof.
  intros Hu. unfold can. mw_unfold. rewrite Hu. simpl. by rewrite <- !app_assoc.
Qed.

Lemma can_user_undefined permissions policies action entity (s : St) :
  user (req s) = VUndefined ->
  can permissions policies action entity s
  = (Normal (Terminate 500 msg_failure),
     {| req := req s;
        trace := trace s ++ [EvConsoleLog (TypeError "req.user is undefined");
                             EvStatus 500; EvJson msg_failure] |}).
Proof.
  intros Hu. unfold can. mw_unfold. rewrite Hu. simpl. by rewrite <- !app_assoc.
Qed.

(** The permission source itself may fail. *)
Lemma can_permissions_fault permissions policies action entity (s : St) u e :
  user (req s) = VObj u ->
  permissions u = Throw e ->
  can permissions policies action entity s
  = (Normal (Terminate 500 msg_failure),
     {| req := req s;
        trace := trace s ++ [EvPermissions; EvConsoleLog e;
                             EvStatus 500; EvJson msg_failure] |}).
Proof.
  intros Hu Hp. unfold can. mw_unfold. rewrite Hu. simpl. rewrite Hp. simpl.
  by rewrite <- !app_assoc.
Qed.

Lemma can_with_permissions permissions policies action entity (s : St) u perms :
  user (req s) = VObj u ->
  permissions u = Normal perms ->
  can permissions policies action entity s
  = can_result action entity s
      (authorize_completion action entity
         (authorize action entity perms policies (req s))).
Proof.
  intros Hu Hp. unfold can. mw_unfold. rewrite Hu. simpl. rewrite Hp. simpl.
  destruct (authorize_completion _ _ _) as [[|]|e]; simpl;
    by rewrite <- !app_assoc.
Qed.

(** ** Authentication *)

(** C4. The bypass of [authenticate] is by exact match of the request url:
    a request whose url is "/" or "/auth/login" continues at once, and no
    token is decoded for it; a request with any other url whose token does not
    decode is answered 401, and the next handler is not called. *)
Theorem authenticate_bypass_exact db decode (s : St) :
  (url (req s) = "/" \/ url (req s) = "/auth/login" ->
     authenticate db decode s
     = (Normal Continue, {| req := req s; trace := trace s ++ [EvNext] |}))
  /\ (url (req s) <> "/" -> url (req s) <> "/auth/login" ->
      (forall username, decode (req s) <> Normal username) ->
      authenticate db decode s
      = (Normal (Terminate 401 "Sorry :( Log in and try again."),
         {| req := req s;
            trace := trace s ++ [EvDecodeAuthToken; EvStatus 401;
                                 EvJson "Sorry :( Log in and try again."] |})).
Proof.
  split.
  - intros Hu. apply authenticate_public. by apply is_public_spec.
  - intros H1 H2 Hd.
    assert (Hp : is_public (url (req s)) = false).
    { destruct (is_public (url (req s))) eqn:E; [|done].
      apply is_public_spec in E. tauto. }
    destruct (decode (req s)) as [username|e] eqn:E.
    + by destruct (Hd username).
    + by apply authenticate_no_token with (e := e).
Qed.

Lemma authenticate_bypass_exact_witness :
  authenticate Sample.db Sample.decode
    (start (Sample.request "/auth/login" None None))
  = (Normal Continue,
     {| req := Sample.request "/auth/login" None None; trace := [EvNext] |})
  /\ authenticate Sample.db Sample.decode
       (start (Sample.request "/articles/a1" None (Some "a1")))
     = (Normal (Terminate 401 "Sorry :( Log in and try again."),
        {| req := Sample.request "/articles/a1" None (Some "a1");
           trace := [EvDecodeAuthToken; EvStatus 401;
                     EvJson "Sorry :( Log in and try again."] |}).
Proof.
  split.
  - apply (proj1 (authenticate_bypass_exact Sample.db Sample.decode
                    (start (Sample.request "/auth/login" None None)))).
    right. reflexivity.
  - apply (proj2 (authenticate_bypass_exact Sample.db Sample.decode
                    (start (Sample.request "/articles/a1" None (Some "a1"))))).
    + simpl. discriminate.
    + simpl. discriminate.
    + intros username. vm_compute. discriminate.
Defined.

(** C2. A token that decodes to a user name no stored user has: the lookup
    settles to [null], which [authenticate] attaches as [req.user] before
    calling the next handler; no 401 is sent. *)
Theorem authenticate_unknown_user_continues :
  authenticate Sample.db Sample.decode
    (start (Sample.request "/articles/a1" (Some "ghost") (Some "a1")))
  = (Normal Continue,
     {| req := set_user VNull (Sample.request "/articles/a1" (Some "ghost") (Some "a1"));
        trace := [EvDecodeAuthToken; EvQuery (user_query "ghost"); EvNext] |}).
Proof.
  apply (authenticate_lookup_settled Sample.db Sample.decode
           (start (Sample.request "/articles/a1" (Some "ghost") (Some "a1")))
           "ghost" VNull); reflexivity.
Qed.

(** C10. A request off the public paths whose token decodes to a user name
    that matches no stored user: [authenticate] sets [req.user] to [null] and
    calls the next handler; a stage made by [can] that such a request reaches
    throws on reading the permissions and answers 500, not 401. *)
Theorem unknown_caller_continues_then_500 db decode permissions policies
    (s : St) (username : string) :
  url (req s) <> "/" -> url (req s) <> "/auth/login" ->
  decode (req s) = Normal username ->
  fault db User {| f_field := "username"; f_value := Some username |} = None ->
  List.find (matches {| f_field := "username"; f_value := Some username |})
    (collection db User) = None ->
  authenticate db decode s
  = (Normal Continue,
     {| req := set_user VNull (req s);
        trace := trace s ++ [EvDecodeAuthToken; EvQuery (user_query username); EvNext] |})
  /\ (forall action entity (s' : St),
        user (req s') = VNull ->
        can permissions policies action entity s'
        = (Normal (Terminate 500 "Sorry :( Something bad happened."),
           {| req := req s';
              trace := trace s' ++ [EvConsoleLog (TypeError "req.user is null");
                                    EvStatus 500;
                                    EvJson "Sorry :( Something bad happened."] |}))
  /\ (forall action entity,
        (run_pipeline [authenticate db decode; can permissions policies action entity] s).1
        = Normal (Terminate 500 "Sorry :( Something bad happened.")).
Proof.
  intros H1 H2 Hd Hf Hn.
  assert (Hp : is_public (url (req s)) = false).
  { destruct (is_public (url (req s))) eqn:E; [|done].
    apply is_public_spec in E. tauto. }
  assert (Ha := authenticate_lookup_settled db decode s username VNull Hp Hd
                  (user_query_no_match db username Hf Hn)).
  split; [exact Ha|]. split.
  - intros action entity s' Hu. by apply can_user_null.
  - intros action entity. simpl. rewrite Ha.
    by rewrite can_user_null.
Qed.

Lemma unknown_caller_continues_then_500_witness :
  authenticate Sample.db Sample.decode
    (start (Sample.request "/articles/a1" (Some "ghost") (Some "a1")))
  = (Normal Continue,
     {| req := set_user VNull (Sample.request "/articles/a1" (Some "ghost") (Some "a1"));
        trace := [EvDecodeAuthToken; EvQuery (user_query "ghost"); EvNext] |})
  /\ (run_pipeline [authenticate Sample.db Sample.decode;
                    can Sample.permissions_of Sample.registry "edit" "article"]
        (start (Sample.request "/articles/a1" (Some "ghost") (Some "a1")))).1
     = Normal (Terminate 500 "Sorry :( Something bad happened.").
Proof.
  destruct (unknown_caller_continues_then_500 Sample.db Sample.decode
              Sample.permissions_of Sample.registry
              (start (Sample.request "/articles/a1" (Some "ghost") (Some "a1")))
              "ghost")
    as (Ha & _ & Hr).
  - simpl. discriminate.
  - simpl. discriminate.
  - reflexivity.
  - reflexivity.
  - reflexivity.
  - split; [exact Ha | exact (Hr "edit" "article")].
Defined.

(** ** The authorization stage *)

(** Every run of [can] is one of five: the caller is missing, the permission
    source fails, or the engine is called with the permissions obtained. *)
Lemma can_cases permissions policies action entity (s : St) :
  (exists e,
     can permissions policies action entity s
     = (Normal (Terminate 500 msg_failure),
        {| req := req s;
           trace := trace s ++ [EvConsoleLog e; EvStatus 500; EvJson msg_failure] |}))
  \/ (exists e,
        can permissions policies action entity s
        = (Normal (Terminate 500 msg_failure),
           {| req := req s;
              trace := trace s ++ [EvPermissions; EvConsoleLog e;
                                   EvStatus 500; EvJson msg_failure] |}))
  \/ (exists c,
        can permissions policies action entity s = can_result action entity s c).
Proof.
  destruct (user (req s)) as [| |b|str|l|u] eqn:Hu.
  - left. eexists. by apply can_user_undefined.
  - left. eexists. by apply can_user_null.
  - right; right. eexists. unfold can. mw_unfold. rewrite Hu. simpl.
    instantiate (1 := authorize_completion action entity
                        (authorize action entity VUndefined policies (req s))).
    destruct (authorize_completion _ _ _) as [[|]|e]; simpl; by rewrite <- !app_assoc.
  - right; right. eexists. unfold can. mw_unfold. rewrite Hu. simpl.
    instantiate (1 := authorize_completion action entity
                        (authorize action entity VUndefined policies (req s))).
    destruct (authorize_completion _ _ _) as [[|]|e]; simpl; by rewrite <- !app_assoc.
  - right; right. eexists. unfold can. mw_unfold. rewrite Hu. simpl.
    instantiate (1 := authorize_completion action entity
                        (authorize action entity VUndefined policies (req s))).
    destruct (authorize_completion _ _ _) as [[|]|e]; simpl; by rewrite <- !app_assoc.
  - destruct (permissions u) as [perms|e] eqn:Hp.
    + right; right. eexists. by eapply can_with_permissions.
    + right; left. eexists. by eapply can_permissions_fault.
Qed.

Lemma can_result_emitted action entity (s : St) c :
  exists rest,
    emitted s (can_result action entity s c)
    = EvPermissions :: EvAuthorize action entity :: rest.
Proof.
  destruct c as [[|]|e]; simpl; rewrite emitted_app; eauto.
Qed.

(** A registry without the record, or a record without the action, makes the
    call of the engine throw. *)
Lemma authorize_completion_missing action entity perms (policies : Registry) r :
  policies !! entity = None
  \/ (exists policy, policies !! entity = Some policy /\ policy !! action = None) ->
  exists e,
    authorize_completion action entity (authorize action entity perms policies r)
    = Throw e.
Proof.
  unfold authorize. intros [Hn | (policy & Hs & Hn)].
  - rewrite Hn. simpl. eauto.
  - rewrite Hs. cbv beta iota. rewrite Hn. simpl. eauto.
Qed.

(** C5. With a decision of the engine: [Allowed] makes the stage call the next
    handler; [Denied] makes it answer 403 with the message "You are not
    authorized to perform this action.", and the next handler is not
    called. *)
Theorem can_allowed_continues_denied_403 permissions policies action entity
    (s : St) (u : Doc) (perms : Value) :
  user (req s) = VObj u ->
  permissions u = Normal perms ->
  (authorize action entity perms policies (req s) = Normal Allowed ->
     can permissions policies action entity s
     = (Normal Continue,
        {| req := req s;
           trace := trace s ++ [EvPermissions; EvAuthorize action entity; EvNext] |}))
  /\ (authorize action entity perms policies (req s) = Normal Denied ->
      can permissions policies action entity s
      = (Normal (Terminate 403 "You are not authorized to perform this action."),
         {| req := req s;
            trace := trace s ++ [EvPermissions; EvAuthorize action entity;
                                 EvStatus 403;
                                 EvJson "You are not authorized to perform this action."] |})
      /\ EvNext ∉ emitted s (can permissions policies action entity s)).
Proof.
  intros Hu Hp. rewrite (can_with_permissions _ _ _ _ _ _ _ Hu Hp).
  split; intros Ha; rewrite Ha; simpl; [done|].
  split; [done|]. rewrite emitted_app.
  rewrite !elem_of_cons, elem_of_nil. intros [?|[?|[?|[?|[]]]]]; discriminate.
Qed.

Lemma can_allowed_continues_denied_403_witness :
  can Sample.permissions_of Sample.registry "edit" "article"
    (Sample.alice_at "/articles/a1" (Some "a1"))
  = (Normal Continue,
     {| req := req (Sample.alice_at "/articles/a1" (Some "a1"));
        trace := [EvPermissions; EvAuthorize "edit" "article"; EvNext] |})
  /\ can Sample.permissions_of Sample.registry "delete" "article"
       (Sample.alice_at "/articles/a1" (Some "a1"))
     = (Normal (Terminate 403 "You are not authorized to perform this action."),
        {| req := req (Sample.alice_at "/articles/a1" (Some "a1"));
           trace := [EvPermissions; EvAuthorize "delete" "article"; EvStatus 403;
                     EvJson "You are not authorized to perform this action."] |}).
Proof.
  split.
  - apply (proj1 (can_allowed_continues_denied_403 Sample.permissions_of
                    Sample.registry "edit" "article"
                    (Sample.alice_at "/articles/a1" (Some "a1")) Sample.alice
                    (VArr [VStr "r1"; VStr "r9"]) eq_refl eq_refl)).
    reflexivity.
  - apply (proj2 (can_allowed_continues_denied_403 Sample.permissions_of
                    Sample.registry "delete" "article"
                    (Sample.alice_at "/articles/a1" (Some "a1")) Sample.alice
                    (VArr [VStr "r1"; VStr "r9"]) eq_refl eq_refl)).
    reflexivity.
Defined.

(** C1, as the code has it. The stage reads the permissions of the caller
    first and calls the engine, which consults the registry, only after
    that: whenever the engine is called, the permission source has been read
    just before. With the permissions obtained, a registry without a record
    for the entity, or a record without the action, makes the stage answer
    500 after the permission source has been read. *)
Theorem can_permissions_before_registry permissions policies action entity (s : St) :
  (EvAuthorize action entity ∈ emitted s (can permissions policies action entity s) ->
     exists rest,
       emitted s (can permissions policies action entity s)
       = EvPermissions :: EvAuthorize action entity :: rest)
  /\ (forall (u : Doc) (perms : Value),
        user (req s) = VObj u ->
        permissions u = Normal perms ->
        policies !! entity = None
        \/ (exists policy, policies !! entity = Some policy /\ policy !! action = None) ->
        exists e,
          can permissions policies action entity s
          = (Normal (Terminate 500 "Sorry :( Something bad happened."),
             {| req := req s;
                trace := trace s ++ [EvPermissions; EvAuthorize action entity;
                                     EvConsoleLog e; EvStatus 500;
                                     EvJson "Sorry :( Something bad happened."] |})).
Proof.
  split.
  - destruct (can_cases permissions policies action entity s)
      as [[e He] | [[e He] | [c Hc]]].
    + rewrite He, emitted_app.
      rewrite !elem_of_cons, elem_of_nil. intros [?|[?|[?|[]]]]; discriminate.
    + rewrite He, emitted_app.
      rewrite !elem_of_cons, elem_of_nil. intros [?|[?|[?|[?|[]]]]]; discriminate.
    + intros _. rewrite Hc. apply can_result_emitted.
  - intros u perms Hu Hp Hmiss.
    rewrite (can_with_permissions _ _ _ _ _ _ _ Hu Hp).
    destruct (authorize_completion_missing action entity perms policies (req s) Hmiss)
      as [e He].
    rewrite He. simpl. eauto.
Qed.

Lemma can_permissions_before_registry_witness :
  (exists rest,
     emitted (Sample.alice_at "/widgets/7" (Some "7"))
       (can Sample.permissions_of Sample.registry "edit" "widget"
          (Sample.alice_at "/widgets/7" (Some "7")))
     = EvPermissions :: EvAuthorize "edit" "widget" :: rest)
  /\ (exists e,
        can Sample.permissions_of Sample.registry "edit" "widget"
          (Sample.alice_at "/widgets/7" (Some "7"))
        = (Normal (Terminate 500 "Sorry :( Something bad happened."),
           {| req := req (Sample.alice_at "/widgets/7" (Some "7"));
              trace := [EvPermissions; EvAuthorize "edit" "widget";
                        EvConsoleLog e; EvStatus 500;
                        EvJson "Sorry :( Something bad happened."] |})).
Proof.
  split.
  - apply (proj1 (can_permissions_before_registry Sample.permissions_of
                    Sample.registry "edit" "widget"
                    (Sample.alice_at "/widgets/7" (Some "7")))).
    vm_compute. apply list_elem_of_further, list_elem_of_here.
  - apply (proj2 (can_permissions_before_registry Sample.permissions_of
                    Sample.registry "edit" "widget"
                    (Sample.alice_at "/widgets/7" (Some "7")))
             Sample.alice (VArr [VStr "r1"; VStr "r9"]) eq_refl eq_refl).
    left. reflexivity.
Defined.

(** C1, as the spec has it, fails: the registry has no record for "widget",
    and the stage has read the permissions of the caller all the same, before
    the engine was called. *)
Lemma can_reads_permissions_without_policy :
  Sample.registry !! "widget" = None
  /\ can Sample.permissions_of Sample.registry "edit" "widget"
       (Sample.alice_at "/widgets/7" (Some "7"))
     = (Normal (Terminate 500 "Sorry :( Something bad happened."),
        {| req := req (Sample.alice_at "/widgets/7" (Some "7"));
           trace := [EvPermissions; EvAuthorize "edit" "widget";
                     EvConsoleLog (PolicyMissing "widget"); EvStatus 500;
                     EvJson "Sorry :( Something bad happened."] |})
  /\ EvPermissions ∈ emitted (Sample.alice_at "/widgets/7" (Some "7"))
       (can Sample.permissions_of Sample.registry "edit" "widget"
          (Sample.alice_at "/widgets/7" (Some "7"))).
Proof.
  split; [reflexivity|]. split; [reflexivity|].
  vm_compute. apply list_elem_of_here.
Qed.

(** ** The decision engine *)




(** ** Resource resolution *)

Lemma processArticleParam_resolve db :
  processArticleParam db = resolve db article_query "article" msg_no_article.
Proof. reflexivity. Qed.

Lemma processRoleParam_resolve db :
  processRoleParam db = resolve db role_query "role" msg_no_role.
Proof. reflexivity. Qed.

Lemma processUserParam_resolve db :
  processUserParam db = resolve db user_by_id_query "user" msg_no_user.
Proof. reflexivity. Qed.

Lemma resolve_settled db query key message (s : St) v c :
  exec db (query (req s)) = Normal v ->
  context (req s) = Some c ->
  resolve db query key message s
  = (Normal Continue,
     {| req := set_context (Some (<[key := v]> c)) (req s);
        trace := trace s ++ [EvQuery (query (req s)); EvNext] |}).
Proof.
  intros Hq Hc. unfold resolve. mw_unfold. simpl. rewrite Hq. simpl.
  rewrite Hc. simpl. by rewrite <- !app_assoc.
Qed.

Lemma resolve_rejected db query key message (s : St) e :
  exec db (query (req s)) = Throw e ->
  resolve db query key message s
  = (Normal (Terminate 404 message),
     {| req := req s;
        trace := trace s ++ [EvQuery (query (req s)); EvStatus 404; EvJson message] |}).
Proof.
  intros Hq. unfold resolve. mw_unfold. simpl. rewrite Hq. simpl.
  by rewrite <- !app_assoc.
Qed.

(** Without [init] before it, the assignment throws and the handler answers. *)
Lemma resolve_no_context db query key message (s : St) v :
  exec db (query (req s)) = Normal v ->
  context (req s) = None ->
  resolve db query key message s
  = (Normal (Terminate 404 message),
     {| req := req s;
        trace := trace s ++ [EvQuery (query (req s)); EvStatus 404; EvJson message] |}).
Proof.
  intros Hq Hc. unfold resolve. mw_unfold. simpl. rewrite Hq. simpl.
  rewrite Hc. simpl. by rewrite <- !app_assoc.
Qed.

Lemma resolve_cases db query key message (s : St) :
  (exists v c,
     exec db (query (req s)) = Normal v /\ context (req s) = Some c
     /\ resolve db query key message s
        = (Normal Continue,
           {| req := set_context (Some (<[key := v]> c)) (req s);
              trace := trace s ++ [EvQuery (query (req s)); EvNext] |}))
  \/ resolve db query key message s
     = (Normal (Terminate 404 message),
        {| req := req s;
           trace := trace s ++ [EvQuery (query (req s)); EvStatus 404; EvJson message] |}).
Proof.
  destruct (exec db (query (req s))) as [v|e] eqn:Hq.
  - destruct (context (req s)) as [c|] eqn:Hc.
    + left. exists v, c. eauto using resolve_settled.
    + right. by eapply resolve_no_context.
  - right. by eapply resolve_rejected.
Qed.

(** With [orFail], a lookup that finds nothing or fails rejects the query. *)
Lemma exec_orFail_rejects db (q : Query) :
  q_orFail q = true ->
  lookup_doc db (q_model q) (q_filter q) = Normal None
  \/ (exists e, lookup_doc db (q_model q) (q_filter q) = Throw e) ->
  exists e, exec db q = Throw e.
Proof.
  intros Ho [Hn | [e He]]; unfold exec.
  - rewrite Hn, Ho. eauto.
  - rewrite He. eauto.
Qed.

(** C6. A resolution stage whose id matches no stored record, or whose lookup
    fails, answers 404 with the message of its entity and leaves the request,
    and so the context and its key, as it was. *)
Theorem resolution_failure_404 db (s : St) :
  (lookup_doc db Article (id_filter (req s)) = Normal None
   \/ (exists e, lookup_doc db Article (id_filter (req s)) = Throw e) ->
     processArticleParam db s
     = (Normal (Terminate 404 "The article does not exist."),
        {| req := req s;
           trace := trace s ++ [EvQuery (article_query (req s)); EvStatus 404;
                                EvJson "The article does not exist."] |}))
  /\ (lookup_doc db Role (id_filter (req s)) = Normal None
      \/ (exists e, lookup_doc db Role (id_filter (req s)) = Throw e) ->
      processRoleParam db s
      = (Normal (Terminate 404 "The role does not exist."),
         {| req := req s;
            trace := trace s ++ [EvQuery (role_query (req s)); EvStatus 404;
                                 EvJson "The role does not exist."] |}))
  /\ (lookup_doc db User (id_filter (req s)) = Normal None
      \/ (exists e, lookup_doc db User (id_filter (req s)) = Throw e) ->
      processUserParam db s
      = (Normal (Terminate 404 "The user does not exist."),
         {| req := req s;
            trace := trace s ++ [EvQuery (user_by_id_query (req s)); EvStatus 404;
                                 EvJson "The user does not exist."] |})).
Proof.
  repeat split; intros Hfail.
  - destruct (exec_orFail_rejects db (article_query (req s)) eq_refl Hfail) as [e He].
    rewrite processArticleParam_resolve. by eapply resolve_rejected.
  - destruct (exec_orFail_rejects db (role_query (req s)) eq_refl Hfail) as [e He].
    rewrite processRoleParam_resolve. by eapply resolve_rejected.
  - destruct (exec_orFail_rejects db (user_by_id_query (req s)) eq_refl Hfail) as [e He].
    rewrite processUserParam_resolve. by eapply resolve_rejected.
Qed.

Lemma resolution_failure_404_witness :
  processArticleParam Sample.db (Sample.ready "/articles/zz" (Some "zz"))
  = (Normal (Terminate 404 "The article does not exist."),
     {| req := req (Sample.ready "/articles/zz" (Some "zz"));
        trace := [EvQuery (article_query (req (Sample.ready "/articles/zz" (Some "zz"))));
                  EvStatus 404; EvJson "The article does not exist."] |})
  /\ processRoleParam Sample.db (Sample.ready "/roles/bad" (Some "bad"))
     = (Normal (Terminate 404 "The role does not exist."),
        {| req := req (Sample.ready "/roles/bad" (Some "bad"));
           trace := [EvQuery (role_query (req (Sample.ready "/roles/bad" (Some "bad"))));
                     EvStatus 404; EvJson "The role does not exist."] |})
  /\ processUserParam Sample.db (Sample.ready "/users/u7" (Some "u7"))
     = (Normal (Terminate 404 "The user does not exist."),
        {| req := req (Sample.ready "/users/u7" (Some "u7"));
           trace := [EvQuery (user_by_id_query (req (Sample.ready "/users/u7" (Some "u7"))));
                     EvStatus 404; EvJson "The user does not exist."] |}).
Proof.
  split; [|split].
  - apply (proj1 (resolution_failure_404 Sample.db
                    (Sample.ready "/articles/zz" (Some "zz")))).
    left. reflexivity.
  - apply (proj1 (proj2 (resolution_failure_404 Sample.db
                           (Sample.ready "/roles/bad" (Some "bad"))))).
    right. exists (LookupError "CastError"). reflexivity.
  - apply (proj2 (proj2 (resolution_failure_404 Sample.db
                           (Sample.ready "/users/u7" (Some "u7"))))).
    left. reflexivity.
Defined.

(** ** The messages of the responses *)

Lemma init_run (s : St) :
  init s = (Normal Continue,
            {| req := set_context (Some ∅) (req s); trace := trace s ++ [EvNext] |}).
Proof. reflexivity. Qed.

Lemma authenticate_outcomes db decode (s : St) :
  (authenticate db decode s).1 = Normal Continue
  \/ (authenticate db decode s).1 = Normal (Terminate 401 msg_unauthenticated).
Proof.
  destruct (is_public (url (req s))) eqn:Hp.
  - left. by rewrite authenticate_public.
  - destruct (decode (req s)) as [username|e] eqn:Hd.
    + destruct (exec db (user_query username)) as [v|e] eqn:Hq.
      * left. by erewrite authenticate_lookup_settled.
      * right. by erewrite authenticate_lookup_error.
    + right. by erewrite authenticate_no_token.
Qed.

Lemma can_outcomes permissions policies action entity (s : St) :
  (can permissions policies action entity s).1 = Normal Continue
  \/ (can permissions policies action entity s).1 = Normal (Terminate 403 msg_forbidden)
  \/ (can permissions policies action entity s).1 = Normal (Terminate 500 msg_failure).
Proof.
  destruct (can_cases permissions policies action entity s)
    as [[e He] | [[e He] | [c Hc]]].
  - right; right. by rewrite He.
  - right; right. by rewrite He.
  - rewrite Hc. destruct c as [[|]|e]; simpl; eauto.
Qed.

Lemma resolve_outcomes db query key message (s : St) :
  (resolve db query key message s).1 = Normal Continue
  \/ (resolve db query key message s).1 = Normal (Terminate 404 message).
Proof.
  destruct (resolve_cases db query key message s) as [(v & c & _ & _ & H) | H];
    rewrite H; eauto.
Qed.

(** C7, as the code has it. Whatever stage answers 401 sends the message
    "Sorry :( Log in and try again.", and whatever stage answers 500 sends the
    message "Sorry :( Something bad happened.". *)
Theorem failure_messages db decode permissions policies action entity
    (stage : Stage) (s s' : St) (code : nat) (message : string) :
  stage ∈ [init; authenticate db decode; can permissions policies action entity;
           processArticleParam db; processRoleParam db; processUserParam db] ->
  stage s = (Normal (Terminate code message), s') ->
  (code = 401 -> message = "Sorry :( Log in and try again.")
  /\ (code = 500 -> message = "Sorry :( Something bad happened.").
Proof.
  intros Hin Hrun.
  assert (Hfst : (stage s).1 = Normal (Terminate code message)) by by rewrite Hrun.
  clear Hrun. rewrite !elem_of_cons, elem_of_nil in Hin.
  destruct Hin as [->|[->|[->|[->|[->|[->|[]]]]]]].
  - rewrite init_run in Hfst. discriminate.
  - destruct (authenticate_outcomes db decode s) as [H|H];
      rewrite H in Hfst; [discriminate|].
    injection Hfst as <- <-. split; [done|discriminate].
  - destruct (can_outcomes permissions policies action entity s) as [H|[H|H]];
      rewrite H in Hfst; [discriminate| |];
      injection Hfst as <- <-; split; done || discriminate.
  - rewrite processArticleParam_resolve in Hfst.
    destruct (resolve_outcomes db article_query "article" msg_no_article s) as [H|H];
      rewrite H in Hfst; [discriminate|].
    injection Hfst as <- <-. split; discriminate.
  - rewrite processRoleParam_resolve in Hfst.
    destruct (resolve_outcomes db role_query "role" msg_no_role s) as [H|H];
      rewrite H in Hfst; [discriminate|].
    injection Hfst as <- <-. split; discriminate.
  - rewrite processUserParam_resolve in Hfst.
    destruct (resolve_outcomes db user_by_id_query "user" msg_no_user s) as [H|H];
      rewrite H in Hfst; [discriminate|].
    injection Hfst as <- <-. split; discriminate.
Qed.

Lemma failure_messages_witness :
  authenticate Sample.db Sample.decode
    (start (Sample.request "/articles/a1" None (Some "a1")))
  = (Normal (Terminate 401 msg_unauthenticated),
     {| req := Sample.request "/articles/a1" None (Some "a1");
        trace := [EvDecodeAuthToken; EvStatus 401; EvJson msg_unauthenticated] |})
  /\ msg_unauthenticated = "Sorry :( Log in and try again.".
Proof.
  split; [reflexivity|].
  apply (proj1 (failure_messages Sample.db Sample.decode Sample.permissions_of
                  Sample.registry "edit" "article"
                  (authenticate Sample.db Sample.decode)
                  (start (Sample.request "/articles/a1" None (Some "a1")))
                  {| req := Sample.request "/articles/a1" None (Some "a1");
                     trace := [EvDecodeAuthToken; EvStatus 401;
                               EvJson msg_unauthenticated] |}
                  401 msg_unauthenticated
                  (list_elem_of_further _ _ _ (list_elem_of_here _ _))
                  eq_refl)).
  reflexivity.
Defined.

(** C7, as the spec has it, fails: the 401 of [authenticate] and the 500 of
    [can] carry the messages of the code, which are not those of the table. *)
Lemma messages_not_those_of_table :
  (authenticate Sample.db Sample.decode
     (start (Sample.request "/articles/a1" None (Some "a1")))).1
  = Normal (Terminate 401 "Sorry :( Log in and try again.")
  /\ "Sorry :( Log in and try again." <> "Sorry — log in and try again."
  /\ (can Sample.permissions_of Sample.registry "edit" "widget"
        (Sample.alice_at "/widgets/7" (Some "7"))).1
     = Normal (Terminate 500 "Sorry :( Something bad happened.")
  /\ "Sorry :( Something bad happened." <> "Sorry — something bad happened.".
Proof.
  split; [reflexivity|]. split; [discriminate|].
  split; [reflexivity|discriminate].
Qed.

(** ** The request context along the pipeline *)

Lemma keeps_refl (r : Request) : keeps r r.
Proof. by intros k v. Qed.

Lemma keeps_same (r r' : Request) : context r = context r' -> keeps r r'.
Proof. intros H k v. unfold context_get. by rewrite H. Qed.

Lemma keeps_trans (r1 r2 r3 : Request) : keeps r1 r2 -> keeps r2 r3 -> keeps r1 r3.
Proof. intros H1 H2 k v Hk. apply H2, H1, Hk. Qed.

Lemma keeps_fresh (r : Request) : context r = None -> forall r', keeps r r'.
Proof. intros H r' k v. unfold context_get. by rewrite H. Qed.

(** Assigning a key the context does not have keeps all it has. *)
Lemma keeps_insert (r : Request) (c : Doc) key v :
  context r = Some c -> c !! key = None ->
  keeps r (set_context (Some (<[key := v]> c)) r).
Proof.
  intros Hc Hk k w. unfold context_get. rewrite Hc. simpl.
  intros Hw. rewrite lookup_insert_ne; [done|]. congruence.
Qed.

(** A resolution stage touches no key but its own, and drops none. *)
Lemma resolve_frame db query key message (s : St) (k : string) :
  k <> key ->
  context_get (req (resolve db query key message s).2) k = context_get (req s) k.
Proof.
  intros Hk.
  destruct (resolve_cases db query key message s) as [(v & c & _ & Hc & H) | H];
    rewrite H; simpl; [|done].
  unfold context_get. simpl. rewrite Hc. by rewrite lookup_insert_ne.
Qed.

Lemma resolve_keys_grow db query key message (s : St) :
  context_keys (req s) ⊆ context_keys (req (resolve db query key message s).2).
Proof.
  destruct (resolve_cases db query key message s) as [(v & c & _ & Hc & H) | H];
    rewrite H; simpl; [|done].
  unfold context_keys. simpl. rewrite Hc, dom_insert_L. set_solver.
Qed.

Ltac keeps_step :=
  match goal with
  | |- keeps ?r ?r => apply keeps_refl
  | |- keeps _ _ => apply keeps_same; reflexivity
  | |- keeps _ _ => apply keeps_fresh; assumption
  | |- keeps _ _ =>
      eapply keeps_insert; [reflexivity|];
      repeat (rewrite lookup_insert_ne by discriminate); apply lookup_empty
  end.

Ltac chain_sorted :=
  repeat first [ apply Sorted_nil
               | apply Sorted_cons
               | apply HdRel_nil
               | apply HdRel_cons; simpl; keeps_step ].

(** C8. Along [init], [processArticleParam], [processRoleParam],
    [processUserParam], run on a request that comes without a context, every
    state keeps the keys and the values of the states before it: a key is
    added at most once and never removed. Each resolution stage leaves every
    key but its own as it was, drops no key, and the three keys differ. *)
Theorem context_keys_only_added db (r0 : Request) :
  context r0 = None ->
  StronglySorted (fun s s' => keeps (req s) (req s'))
    (start r0 :: run_states [init; processArticleParam db; processRoleParam db;
                             processUserParam db] (start r0))
  /\ (forall (s : St) k, k <> "article" ->
        context_get (req (processArticleParam db s).2) k = context_get (req s) k)
  /\ (forall (s : St) k, k <> "role" ->
        context_get (req (processRoleParam db s).2) k = context_get (req s) k)
  /\ (forall (s : St) k, k <> "user" ->
        context_get (req (processUserParam db s).2) k = context_get (req s) k)
  /\ (forall (s : St),
        context_keys (req s) ⊆ context_keys (req (processArticleParam db s).2)
        /\ context_keys (req s) ⊆ context_keys (req (processRoleParam db s).2)
        /\ context_keys (req s) ⊆ context_keys (req (processUserParam db s).2))
  /\ "article" <> "role" /\ "article" <> "user" /\ "role" <> "user".
Proof.
  intros Hfresh. split.
  - apply Sorted_StronglySorted.
    { intros s1 s2 s3. apply keeps_trans. }
    cbn [run_states]. rewrite init_run.
    rewrite processArticleParam_resolve.
    destruct (resolve_cases db article_query "article" msg_no_article
                {| req := set_context (Some ∅) (req (start r0));
                   trace := trace (start r0) ++ [EvNext] |})
      as [(v1 & c1 & _ & Hc1 & ->) | ->]; [|chain_sorted].
    simpl in Hc1. injection Hc1 as <-.
    rewrite processRoleParam_resolve.
    match goal with
    | |- context [resolve db role_query "role" msg_no_role ?s] =>
        destruct (resolve_cases db role_query "role" msg_no_role s)
          as [(v2 & c2 & _ & Hc2 & ->) | ->]; [|chain_sorted]
    end.
    simpl in Hc2. injection Hc2 as <-.
    rewrite processUserParam_resolve.
    match goal with
    | |- context [resolve db user_by_id_query "user" msg_no_user ?s] =>
        destruct (resolve_cases db user_by_id_query "user" msg_no_user s)
          as [(v3 & c3 & _ & Hc3 & ->) | ->]; [|chain_sorted]
    end.
    simpl in Hc3. injection Hc3 as <-.
    chain_sorted.
  - split; [|split; [|split; [|split]]].
    + intros s k Hk. rewrite processArticleParam_resolve. by apply resolve_frame.
    + intros s k Hk. rewrite processRoleParam_resolve. by apply resolve_frame.
    + intros s k Hk. rewrite processUserParam_resolve. by apply resolve_frame.
    + intros s. rewrite processArticleParam_resolve, processRoleParam_resolve,
        processUserParam_resolve. eauto using resolve_keys_grow.
    + repeat split; discriminate.
Qed.

Lemma context_keys_only_added_witness :
  StronglySorted (fun s s' => keeps (req s) (req s'))
    (start (Sample.request "/articles/a1" (Some "alice") (Some "a1"))
     :: run_states [init; processArticleParam Sample.db; processRoleParam Sample.db;
                    processUserParam Sample.db]
          (start (Sample.request "/articles/a1" (Some "alice") (Some "a1")))).
Proof.
  apply (proj1 (context_keys_only_added Sample.db
                  (Sample.request "/articles/a1" (Some "alice") (Some "a1"))
                  eq_refl)).
Defined.

(** ** What a successful resolution stores *)

Lemma populate_refs_referenced db m select (ids rs : list Value) :
  populate_refs db m select ids = Normal rs ->
  rs = referenced db m select ids.
Proof.
  revert rs. induction ids as [|v ids IH]; intros rs; simpl.
  - by intros [= <-].
  - destruct v as [| |b|id|l|o]; try (intros H; by apply IH).
    unfold populate_ref, lookup_doc.
    destruct (fault db m (by_id id)) as [e|]; [discriminate|].
    destruct (List.find (matches (by_id id)) (collection db m)) as [r|].
    + destruct (populate_refs db m select ids) as [vs|e]; [|discriminate].
      intros [= <-]. by rewrite (IH vs eq_refl).
    + destruct (populate_refs db m select ids) as [vs|e]; [|discriminate].
      intros [= <-]. by apply IH.
Qed.

(** A query with [orFail] that settles has found a document and has
    populated it. *)
Lemma exec_orFail_settled db (q : Query) v :
  q_orFail q = true ->
  exec db q = Normal v ->
  exists d d',
    List.find (matches (q_filter q)) (collection db (q_model q)) = Some d
    /\ populate_all db (q_model q) d (q_populate q) = Normal d'
    /\ v = VObj d'.
Proof.
  intros Ho. unfold exec, lookup_doc.
  destruct (fault db (q_model q) (q_filter q)) as [e|]; [discriminate|].
  destruct (List.find _ _) as [d|]; [|rewrite Ho; discriminate].
  destruct (populate_all db (q_model q) d (q_populate q)) as [d'|e] eqn:Hp;
    [|discriminate].
  intros [= <-]. eauto.
Qed.

Lemma resolve_continue db query key message (s s' : St) :
  resolve db query key message s = (Normal Continue, s') ->
  exists v c,
    exec db (query (req s)) = Normal v /\ context (req s) = Some c
    /\ context (req s') = Some (<[key := v]> c).
Proof.
  destruct (resolve_cases db query key message s) as [(v & c & Hq & Hc & H) | H];
    rewrite H; [|discriminate].
  intros [= <-]. exists v, c. eauto.
Qed.

(** C9. The entity a successful resolution stores is already populated. For a
    user, the role references of the document found are replaced by the role
    documents they refer to; for an article, the owner reference is replaced
    by the owner's document without its password (by [null] when the owner
    does not exist). *)
Theorem resolution_eager_loads db (s s' : St) :
  (processUserParam db s = (Normal Continue, s') ->
     exists (d d' c : Doc),
       List.find (matches (id_filter (req s))) (collection db User) = Some d
       /\ context (req s) = Some c
       /\ context (req s') = Some (<["user" := VObj d']> c)
       /\ (forall ids, d !! "roles" = Some (VArr ids) ->
             d' = <["roles" := VArr (referenced db Role None ids)]> d))
  /\ (processArticleParam db s = (Normal Continue, s') ->
      exists (d d' c : Doc),
        List.find (matches (id_filter (req s))) (collection db Article) = Some d
        /\ context (req s) = Some c
        /\ context (req s') = Some (<["article" := VObj d']> c)
        /\ (forall oid, d !! "owner" = Some (VStr oid) ->
              d' = <["owner" :=
                       match List.find (matches (by_id oid)) (collection db User) with
                       | Some o => VObj (delete "password" o)
                       | None => VNull
                       end]> d)).
Proof.
  split; intros Hrun.
  - rewrite processUserParam_resolve in Hrun.
    destruct (resolve_continue _ _ _ _ _ _ Hrun) as (v & c & Hq & Hc & Hc').
    destruct (exec_orFail_settled db (user_by_id_query (req s)) v eq_refl Hq) as (d & d' & Hd & Hp & ->).
    exists d, d', c. repeat split; [done..|].
    intros ids Hids. simpl in Hp. unfold populate_path in Hp. simpl in Hp.
    rewrite Hids in Hp.
    destruct (populate_refs db Role None ids) as [vs|e] eqn:Hrs; [|discriminate].
    injection Hp as <-. by rewrite (populate_refs_referenced _ _ _ _ _ Hrs).
  - rewrite processArticleParam_resolve in Hrun.
    destruct (resolve_continue _ _ _ _ _ _ Hrun) as (v & c & Hq & Hc & Hc').
    destruct (exec_orFail_settled db (article_query (req s)) v eq_refl Hq) as (d & d' & Hd & Hp & ->).
    exists d, d', c. repeat split; [done..|].
    intros oid Hoid. simpl in Hp. unfold populate_path in Hp. simpl in Hp.
    rewrite Hoid in Hp. unfold populate_ref, lookup_doc in Hp.
    destruct (fault db User (by_id oid)) as [e|]; [discriminate|].
    destruct (List.find (matches (by_id oid)) (collection db User)) as [o|];
      by injection Hp as <-.
Qed.

Lemma resolution_eager_loads_witness :
  (exists (d d' c : Doc),
     List.find (matches (id_filter (req (Sample.ready "/users/u1" (Some "u1")))))
       (collection Sample.db User) = Some d
     /\ context (req (Sample.ready "/users/u1" (Some "u1"))) = Some c
     /\ context (req (processUserParam Sample.db
                        (Sample.ready "/users/u1" (Some "u1"))).2)
        = Some (<["user" := VObj d']> c)
     /\ (forall ids, d !! "roles" = Some (VArr ids) ->
           d' = <["roles" := VArr (referenced Sample.db Role None ids)]> d))
  /\ (exists (d d' c : Doc),
        List.find (matches (id_filter (req (Sample.ready "/articles/a1" (Some "a1")))))
          (collection Sample.db Article) = Some d
        /\ context (req (Sample.ready "/articles/a1" (Some "a1"))) = Some c
        /\ context (req (processArticleParam Sample.db
                           (Sample.ready "/articles/a1" (Some "a1"))).2)
           = Some (<["article" := VObj d']> c)
        /\ (forall oid, d !! "owner" = Some (VStr oid) ->
              d' = <["owner" :=
                       match List.find (matches (by_id oid))
                               (collection Sample.db User) with
                       | Some o => VObj (delete "password" o)
                       | None => VNull
                       end]> d)).
Proof.
  split.
  - apply (proj1 (resolution_eager_loads Sample.db
                    (Sample.ready "/users/u1" (Some "u1"))
                    (processUserParam Sample.db
                       (Sample.ready "/users/u1" (Some "u1"))).2)).
    vm_compute. reflexivity.
  - apply (proj2 (resolution_eager_loads Sample.db
                    (Sample.ready "/articles/a1" (Some "a1"))
                    (processArticleParam Sample.db
                       (Sample.ready "/articles/a1" (Some "a1"))).2)).
    vm_compute. reflexivity.
Defined.

(** The stored user has the role that exists as a document, and the dangling
    reference is gone; the stored article has its owner without a password. *)
Example stored_user_roles :
  context_get (req (processUserParam Sample.db
                      (Sample.ready "/users/u1" (Some "u1"))).2) "user"
  = Some (VObj (<["roles" := VArr [VObj Sample.admin_role]]> Sample.alice)).
Proof. vm_compute. reflexivity. Qed.

Example stored_article_owner :
  context_get (req (processArticleParam Sample.db
                      (Sample.ready "/articles/a1" (Some "a1"))).2) "article"
  = Some (VObj (<["owner" := VObj (delete "password" Sample.alice)]> Sample.hello)).
Proof. vm_compute. reflexivity. Qed.

(** * Further properties of the handlers *)

(** ** Every run, case by case *)

Lemma not_public_spec (u : string) :
  is_public u = false <-> u <> "/" /\ u <> "/auth/login".
Proof.
  split.
  - intros H. split; intros ->; discriminate.
  - intros [H1 H2]. destruct (is_public u) eqn:E; [|done].
    apply is_public_spec in E. tauto.
Qed.

Lemma authenticate_cases db decode (s : St) :
  (is_public (url (req s)) = true
   /\ authenticate db decode s
      = (Normal Continue, {| req := req s; trace := trace s ++ [EvNext] |}))
  \/ (exists e,
        is_public (url (req s)) = false /\ decode (req s) = Throw e
        /\ authenticate db decode s
           = (Normal (Terminate 401 msg_unauthenticated),
              {| req := req s;
                 trace := trace s ++ [EvDecodeAuthToken; EvStatus 401;
                                      EvJson msg_unauthenticated] |}))
  \/ (exists username e,
        is_public (url (req s)) = false /\ decode (req s) = Normal username
        /\ exec db (user_query username) = Throw e
        /\ authenticate db decode s
           = (Normal (Terminate 401 msg_unauthenticated),
              {| req := req s;
                 trace := trace s ++ [EvDecodeAuthToken; EvQuery (user_query username);
                                      EvStatus 401; EvJson msg_unauthenticated] |}))
  \/ (exists username v,
        is_public (url (req s)) = false /\ decode (req s) = Normal username
        /\ exec db (user_query username) = Normal v
        /\ authenticate db decode s
           = (Normal Continue,
              {| req := set_user v (req s);
                 trace := trace s ++ [EvDecodeAuthToken; EvQuery (user_query username);
                                      EvNext] |})).
Proof.
  destruct (is_public (url (req s))) eqn:Hp.
  - left. split; [done|]. by apply authenticate_public.
  - right. destruct (decode (req s)) as [username|e] eqn:Hd.
    + right. destruct (exec db (user_query username)) as [v|e] eqn:Hq.
      * right. exists username, v. eauto using authenticate_lookup_settled.
      * left. exists username, e. eauto using authenticate_lookup_error.
    + left. exists e. eauto using authenticate_no_token.
Qed.

(** The query of [authenticate] rejects on a fault of the lookup only, and
    settles to the first match or to [null]. *)
Lemma exec_user_query db username :
  exec db (user_query username)
  = match fault db User {| f_field := "username"; f_value := Some username |} with
    | Some e => Throw e
    | None =>
        match List.find (matches {| f_field := "username"; f_value := Some username |})
                (collection db User) with
        | Some d => Normal (VObj d)
        | None => Normal VNull
        end
    end.
Proof.
  unfold exec, user_query, findOne, lookup_doc; simpl.
  destruct (fault db User _); [done|]. by destruct (List.find _ _).
Qed.

Lemma can_read_settled permissions policies action entity (s : St) perms :
  permissions_read permissions (req s) = Normal perms ->
  can permissions policies action entity s
  = can_result action entity s
      (authorize_completion action entity
         (authorize action entity perms policies (req s))).
Proof.
  unfold permissions_read. intros Hr.
  destruct (user (req s)) as [| |b|str|l|u] eqn:Hu; try discriminate.
  1-3: injection Hr as <-; unfold can; mw_unfold; rewrite Hu; simpl;
    destruct (authorize_completion _ _ _) as [[|]|e]; simpl;
    by rewrite <- !app_assoc.
  by eapply can_with_permissions.
Qed.

Lemma can_read_fault permissions policies action entity (s : St) e :
  permissions_read permissions (req s) = Throw e ->
  exists pre,
    (pre = [] \/ pre = [EvPermissions])
    /\ can permissions policies action entity s
       = (Normal (Terminate 500 msg_failure),
          {| req := req s;
             trace := trace s ++ pre ++ [EvConsoleLog e; EvStatus 500;
                                         EvJson msg_failure] |}).
Proof.
  unfold permissions_read. intros Hr.
  destruct (user (req s)) as [| |b|str|l|u] eqn:Hu; try discriminate.
  - injection Hr as <-. exists []. split; [by left|]. by apply can_user_undefined.
  - injection Hr as <-. exists []. split; [by left|]. by apply can_user_null.
  - exists [EvPermissions]. split; [by right|]. by eapply can_permissions_fault.
Qed.

(** ** The handover *)

Lemma hands_over_continue (s : St) (r : Request) (pre : list Event) :
  Forall (fun e => is_handover e = false) pre ->
  hands_over s (Normal Continue, {| req := r; trace := trace s ++ pre ++ [EvNext] |}).
Proof.
  intros Hpre. exists pre. split; [done|]. left. split; [done|].
  apply emitted_app.
Qed.

Lemma hands_over_terminate (s : St) (r : Request) (pre : list Event) code message :
  Forall (fun e => is_handover e = false) pre ->
  hands_over s (Normal (Terminate code message),
                {| req := r; trace := trace s ++ pre ++ [EvStatus code; EvJson message] |}).
Proof.
  intros Hpre. exists pre. split; [done|]. right. exists code, message.
  split; [done|]. apply emitted_app.
Qed.

Lemma resolve_hands_over db query key message (s : St) :
  hands_over s (resolve db query key message s).
Proof.
  destruct (resolve_cases db query key message s) as [(v & c & _ & _ & ->) | ->].
  - apply (hands_over_continue s _ [EvQuery (query (req s))]). by repeat constructor.
  - apply (hands_over_terminate s _ [EvQuery (query (req s))]). by repeat constructor.
Qed.

Lemma can_hands_over permissions policies action entity (s : St) :
  hands_over s (can permissions policies action entity s).
Proof.
  destruct (permissions_read permissions (req s)) as [perms|e] eqn:Hr.
  - rewrite (can_read_settled _ _ _ _ _ _ Hr).
    destruct (authorize_completion _ _ _) as [[|]|e]; simpl.
    + apply (hands_over_continue s _ [EvPermissions; EvAuthorize action entity]).
      by repeat constructor.
    + apply (hands_over_terminate s _ [EvPermissions; EvAuthorize action entity]).
      by repeat constructor.
    + apply (hands_over_terminate s _
               [EvPermissions; EvAuthorize action entity; EvConsoleLog e]).
      by repeat constructor.
  - destruct (can_read_fault permissions policies action entity s e Hr)
      as (pre & Hpre & ->).
    replace (pre ++ [EvConsoleLog e; EvStatus 500; EvJson msg_failure])
      with ((pre ++ [EvConsoleLog e]) ++ [EvStatus 500; EvJson msg_failure])
      by by rewrite <- app_assoc.
    apply hands_over_terminate. destruct Hpre as [-> | ->]; by repeat constructor.
Qed.

Lemma authenticate_hands_over db decode (s : St) :
  hands_over s (authenticate db decode s).
Proof.
  destruct (authenticate_cases db decode s)
    as [[_ ->] | [(e & _ & _ & ->) | [(u & e & _ & _ & _ & ->) | (u & v & _ & _ & _ & ->)]]].
  - apply (hands_over_continue s _ []). constructor.
  - apply (hands_over_terminate s _ [EvDecodeAuthToken]). by repeat constructor.
  - apply (hands_over_terminate s _ [EvDecodeAuthToken; EvQuery (user_query u)]).
    by repeat constructor.
  - apply (hands_over_continue s _ [EvDecodeAuthToken; EvQuery (user_query u)]).
    by repeat constructor.
Qed.

(** X1. Whatever the request and whatever its collaborators do, each handler
    returns normally and hands over exactly once, as its last act: either it
    calls [next()] and sends nothing, or it sends one response, status then
    body, and does not call [next()]. No exception leaves a handler. *)
Theorem every_handler_hands_over_once db decode permissions policies
    action entity (s : St) :
  hands_over s (init s)
  /\ hands_over s (authenticate db decode s)
  /\ hands_over s (can permissions policies action entity s)
  /\ hands_over s (processArticleParam db s)
  /\ hands_over s (processRoleParam db s)
  /\ hands_over s (processUserParam db s).
Proof.
  split; [|split; [|split; [|split; [|split]]]].
  - rewrite init_run. apply (hands_over_continue s _ []). constructor.
  - apply authenticate_hands_over.
  - apply can_hands_over.
  - rewrite processArticleParam_resolve. apply resolve_hands_over.
  - rewrite processRoleParam_resolve. apply resolve_hands_over.
  - rewrite processUserParam_resolve. apply resolve_hands_over.
Qed.

(** ** What a handler writes *)

Lemma set_user_same (r : Request) : set_user (user r) r = r.
Proof. by destruct r. Qed.

Lemma set_context_same (r : Request) : set_context (context r) r = r.
Proof. by destruct r. Qed.

Lemma can_req permissions policies action entity (s : St) :
  req (can permissions policies action entity s).2 = req s.
Proof.
  destruct (permissions_read permissions (req s)) as [perms|e] eqn:Hr.
  - rewrite (can_read_settled _ _ _ _ _ _ Hr).
    by destruct (authorize_completion _ _ _) as [[|]|e].
  - by destruct (can_read_fault permissions policies action entity s e Hr)
      as (pre & _ & ->).
Qed.

Lemma authenticate_req db decode (s : St) :
  req (authenticate db decode s).2
  = set_user (user (req (authenticate db decode s).2)) (req s).
Proof.
  destruct (authenticate_cases db decode s)
    as [[_ ->] | [(e & _ & _ & ->) | [(u & e & _ & _ & _ & ->) | (u & v & _ & _ & _ & ->)]]];
    simpl; by rewrite ?set_user_same.
Qed.

Lemma resolve_req db query key message (s : St) :
  req (resolve db query key message s).2
  = set_context (context (req (resolve db query key message s).2)) (req s).
Proof.
  destruct (resolve_cases db query key message s) as [(v & c & _ & _ & ->) | ->];
    simpl; by rewrite ?set_context_same.
Qed.

(** X2. Each handler writes its own slot of the request and nothing else:
    [can] leaves the request as it is in every outcome, [authenticate] changes
    [req.user] at most, and [init] and the three resolution handlers change
    [req.context] at most. *)
Theorem handlers_write_their_slot_only db decode permissions policies
    action entity (s : St) :
  req (can permissions policies action entity s).2 = req s
  /\ req (authenticate db decode s).2
     = set_user (user (req (authenticate db decode s).2)) (req s)
  /\ req (init s).2 = set_context (context (req (init s).2)) (req s)
  /\ req (processArticleParam db s).2
     = set_context (context (req (processArticleParam db s).2)) (req s)
  /\ req (processRoleParam db s).2
     = set_context (context (req (processRoleParam db s).2)) (req s)
  /\ req (processUserParam db s).2
     = set_context (context (req (processUserParam db s).2)) (req s).
Proof.
  split; [apply can_req|]. split; [apply authenticate_req|].
  split; [by rewrite init_run|].
  rewrite processArticleParam_resolve, processRoleParam_resolve,
    processUserParam_resolve.
  eauto using resolve_req.
Qed.

Lemma same_target_refl (r : Request) : same_target r r.
Proof. by repeat split. Qed.

Lemma same_target_trans (r1 r2 r3 : Request) :
  same_target r1 r2 -> same_target r2 r3 -> same_target r1 r3.
Proof.
  intros (H1 & H2 & H3) (H4 & H5 & H6). repeat split; congruence.
Qed.

Lemma middleware_same_target db decode permissions policies (stage : Stage) (s : St) :
  middleware db decode permissions policies stage ->
  same_target (req s) (req (stage s).2).
Proof.
  intros [ | |action entity| | | ].
  - rewrite init_run. by repeat split.
  - rewrite authenticate_req. by repeat split.
  - rewrite can_req. apply same_target_refl.
  - rewrite processArticleParam_resolve, resolve_req. by repeat split.
  - rewrite processRoleParam_resolve, resolve_req. by repeat split.
  - rewrite processUserParam_resolve, resolve_req. by repeat split.
Qed.

Lemma middleware_normal db decode permissions policies (stage : Stage) (s : St) :
  middleware db decode permissions policies stage ->
  exists sig, (stage s).1 = Normal sig.
Proof.
  intros [ | |action entity| | | ].
  - rewrite init_run. eauto.
  - destruct (authenticate_outcomes db decode s) as [-> | ->]; eauto.
  - destruct (can_outcomes permissions policies action entity s) as [-> | [-> | ->]];
      eauto.
  - rewrite processArticleParam_resolve.
    destruct (resolve_outcomes db article_query "article" msg_no_article s)
      as [-> | ->]; eauto.
  - rewrite processRoleParam_resolve.
    destruct (resolve_outcomes db role_query "role" msg_no_role s)
      as [-> | ->]; eauto.
  - rewrite processUserParam_resolve.
    destruct (resolve_outcomes db user_by_id_query "user" msg_no_user s)
      as [-> | ->]; eauto.
Qed.

(** X3. However the handlers of the module are chained, in whatever number
    and order, the chain returns normally and the request it ends with has
    the url, the headers and the route parameters it started with. *)
Theorem chain_keeps_target db decode permissions policies
    (stages : list Stage) (s : St) :
  Forall (middleware db decode permissions policies) stages ->
  same_target (req s) (req (run_pipeline stages s).2)
  /\ exists sig, (run_pipeline stages s).1 = Normal sig.
Proof.
  intros Hall. revert s.
  induction Hall as [|stage rest Hstage Hrest IH]; intros s; simpl.
  - split; [apply same_target_refl | eauto].
  - pose proof (middleware_same_target _ _ _ _ stage s Hstage) as Ht.
    destruct (middleware_normal _ _ _ _ stage s Hstage) as [sig Hsig].
    destruct (stage s) as [c s1] eqn:Hrun. simpl in *. subst c.
    destruct sig as [|code message].
    + destruct (IH s1) as [Ht' Hn]. split; [|done].
      eapply same_target_trans; eauto.
    + simpl. split; [done | eauto].
Qed.

Lemma chain_keeps_target_witness :
  same_target (req (start (Sample.request "/articles/a1" (Some "alice") (Some "a1"))))
    (req (run_pipeline
            [init; authenticate Sample.db Sample.decode;
             processArticleParam Sample.db;
             can Sample.permissions_of Sample.registry "edit" "article"]
            (start (Sample.request "/articles/a1" (Some "alice") (Some "a1")))).2).
Proof.
  assert (Hall : Forall (middleware Sample.db Sample.decode Sample.permissions_of
                           Sample.registry)
                   [init; authenticate Sample.db Sample.decode;
                    processArticleParam Sample.db;
                    can Sample.permissions_of Sample.registry "edit" "article"])
    by repeat constructor.
  exact (proj1 (chain_keeps_target Sample.db Sample.decode Sample.permissions_of
                  Sample.registry _
                  (start (Sample.request "/articles/a1" (Some "alice") (Some "a1")))
                  Hall)).
Defined.

(** ** Authentication, from the outcome *)

(** X4. [authenticate] answers 401 exactly when the url is off the two public
    paths and either the token does not decode or the lookup of the user
    fails; the response is the same in both cases, and the request is left as
    it was, so no caller is attached. *)
Theorem authenticate_401_iff db decode (s : St) :
  ((authenticate db decode s).1 <> Normal Continue
   <-> url (req s) <> "/" /\ url (req s) <> "/auth/login"
       /\ ((exists e, decode (req s) = Throw e)
           \/ (exists username e,
                 decode (req s) = Normal username
                 /\ fault db User {| f_field := "username"; f_value := Some username |}
                    = Some e)))
  /\ ((authenticate db decode s).1 <> Normal Continue ->
      (authenticate db decode s).1
      = Normal (Terminate 401 "Sorry :( Log in and try again.")
      /\ req (authenticate db decode s).2 = req s).
Proof.
  destruct (authenticate_cases db decode s)
    as [[Hp H] | [(e & Hp & Hd & H) | [(u & e & Hp & Hd & Hq & H) | (u & v & Hp & Hd & Hq & H)]]];
    rewrite H; simpl.
  - split; [|done]. split; [done|].
    intros (H1 & H2 & _). apply is_public_spec in Hp. tauto.
  - apply not_public_spec in Hp as [H1 H2].
    split; [|done]. split; [|done]. intros _. eauto 6.
  - apply not_public_spec in Hp as [H1 H2].
    split; [|done]. split; [|done]. intros _.
    rewrite exec_user_query in Hq.
    destruct (fault db User _) as [e'|] eqn:Hf.
    + injection Hq as ->. split; [done|]. split; [done|]. right. eauto.
    + by destruct (List.find _ _).
  - split; [|done]. split; [done|].
    intros (_ & _ & [[e He] | (u' & e & Hd' & Hf)]).
    + congruence.
    + rewrite Hd in Hd'. injection Hd' as <-.
      rewrite exec_user_query, Hf in Hq. discriminate.
Qed.

(** X5. When [authenticate] calls [next()] for a url off the public paths,
    the token has decoded and [req.user] is the first stored user with that
    user name, as it is stored, with its password and with its roles as
    references, or [null] when there is none; everything else of the request
    is as before. *)
Theorem authenticate_attaches_first_match db decode (s s' : St) :
  url (req s) <> "/" -> url (req s) <> "/auth/login" ->
  authenticate db decode s = (Normal Continue, s') ->
  exists username,
    decode (req s) = Normal username
    /\ req s'
       = set_user
           match List.find
                   (matches {| f_field := "username"; f_value := Some username |})
                   (collection db User) with
           | Some d => VObj d
           | None => VNull
           end (req s).
Proof.
  intros H1 H2 Hrun.
  assert (Hnp : is_public (url (req s)) = false) by by apply not_public_spec.
  destruct (authenticate_cases db decode s)
    as [[Hp H] | [(e & Hp & Hd & H) | [(u & e & Hp & Hd & Hq & H) | (u & v & Hp & Hd & Hq & H)]]];
    rewrite H in Hrun; try discriminate; [congruence|].
  injection Hrun as <-. exists u. split; [done|]. simpl.
  rewrite exec_user_query in Hq.
  destruct (fault db User _); [discriminate|].
  destruct (List.find _ _); by injection Hq as <-.
Qed.

Lemma authenticate_attaches_first_match_witness :
  exists username,
    Sample.decode (req (start (Sample.request "/articles/a1" (Some "alice") (Some "a1"))))
    = Normal username
    /\ req (authenticate Sample.db Sample.decode
              (start (Sample.request "/articles/a1" (Some "alice") (Some "a1")))).2
       = set_user
           match List.find
                   (matches {| f_field := "username"; f_value := Some username |})
                   (collection Sample.db User) with
           | Some d => VObj d
           | None => VNull
           end (req (start (Sample.request "/articles/a1" (Some "alice") (Some "a1")))).
Proof.
  apply (authenticate_attaches_first_match Sample.db Sample.decode
           (start (Sample.request "/articles/a1" (Some "alice") (Some "a1")))
           (authenticate Sample.db Sample.decode
              (start (Sample.request "/articles/a1" (Some "alice") (Some "a1")))).2).
  - simpl. discriminate.
  - simpl. discriminate.
  - vm_compute. reflexivity.
Defined.

Lemma authenticate_401_iff_witness :
  (authenticate Sample.db Sample.decode
     (start (Sample.request "/articles/a1" None (Some "a1")))).1
  = Normal (Terminate 401 "Sorry :( Log in and try again.")
  /\ req (authenticate Sample.db Sample.decode
            (start (Sample.request "/articles/a1" None (Some "a1")))).2
     = req (start (Sample.request "/articles/a1" None (Some "a1"))).
Proof.
  apply (proj2 (authenticate_401_iff Sample.db Sample.decode
                  (start (Sample.request "/articles/a1" None (Some "a1"))))).
  vm_compute. discriminate.
Defined.

(** ** Resolution stages composed *)

(** The request a resolution stage leaves, from what the query settles to and
    whether there is a context. *)
Lemma resolve_req_eq db query key message (s : St) :
  req (resolve db query key message s).2
  = match exec db (query (req s)), context (req s) with
    | Normal v, Some c => set_context (Some (<[key := v]> c)) (req s)
    | _, _ => req s
    end.
Proof.
  destruct (exec db (query (req s))) as [v|e] eqn:Hq.
  - destruct (context (req s)) as [c|] eqn:Hc.
    + by rewrite (resolve_settled _ _ _ _ _ _ _ Hq Hc).
    + by rewrite (resolve_no_context _ _ _ _ _ _ Hq Hc).
  - by rewrite (resolve_rejected _ _ _ _ _ _ Hq).
Qed.

(** The queries of the three stages read the route parameters only. *)
Lemma article_query_params : reads_params_only article_query.
Proof. intros r r' H. unfold article_query, id_filter. by rewrite H. Qed.

Lemma role_query_params : reads_params_only role_query.
Proof. intros r r' H. unfold role_query, id_filter. by rewrite H. Qed.

Lemma user_by_id_query_params : reads_params_only user_by_id_query.
Proof. intros r r' H. unfold user_by_id_query, id_filter. by rewrite H. Qed.

Lemma resolve_twice db query key message (s : St) :
  reads_params_only query ->
  req (resolve db query key message (resolve db query key message s).2).2
  = req (resolve db query key message s).2.
Proof.
  intros Hq. rewrite (resolve_req_eq _ _ _ _ (resolve db query key message s).2).
  rewrite (resolve_req_eq _ _ _ _ s).
  destruct (exec db (query (req s))) as [v|e] eqn:He.
  - destruct (context (req s)) as [c|] eqn:Hc; cbv beta iota.
    + rewrite (Hq (req s) (set_context (Some (<[key:=v]> c)) (req s)) eq_refl), He.
      simpl. by rewrite insert_insert_eq.
    + by rewrite He, Hc.
  - cbv beta iota. by rewrite He.
Qed.

(** X6. A resolution handler run a second time leaves the request as the
    first run left it: the same entity is looked up again and overwrites
    itself under the same key. *)
Theorem resolution_run_twice db (s : St) :
  req (processArticleParam db (processArticleParam db s).2).2
  = req (processArticleParam db s).2
  /\ req (processRoleParam db (processRoleParam db s).2).2
     = req (processRoleParam db s).2
  /\ req (processUserParam db (processUserParam db s).2).2
     = req (processUserParam db s).2.
Proof.
  rewrite processArticleParam_resolve, processRoleParam_resolve,
    processUserParam_resolve.
  split; [|split]; apply resolve_twice;
    auto using article_query_params, role_query_params, user_by_id_query_params.
Qed.

(** A resolution stage, from what the query settles to and whether there is
    a context. *)
Lemma resolve_run db query key message (s : St) :
  resolve db query key message s
  = match exec db (query (req s)), context (req s) with
    | Normal v, Some c =>
        (Normal Continue,
         {| req := set_context (Some (<[key := v]> c)) (req s);
            trace := trace s ++ [EvQuery (query (req s)); EvNext] |})
    | _, _ =>
        (Normal (Terminate 404 message),
         {| req := req s;
            trace := trace s ++ [EvQuery (query (req s)); EvStatus 404;
                                 EvJson message] |})
    end.
Proof.
  destruct (exec db (query (req s))) as [v|e] eqn:Hq.
  - destruct (context (req s)) as [c|] eqn:Hc.
    + by apply resolve_settled.
    + by eapply resolve_no_context.
  - destruct (context (req s)); by eapply resolve_rejected.
Qed.

Lemma resolve_chain_swap db query1 key1 message1 query2 key2 message2 (s : St) :
  reads_params_only query1 -> reads_params_only query2 -> key1 <> key2 ->
  ((run_pipeline [resolve db query1 key1 message1;
                  resolve db query2 key2 message2] s).1 = Normal Continue
   <-> (run_pipeline [resolve db query2 key2 message2;
                      resolve db query1 key1 message1] s).1 = Normal Continue)
  /\ ((run_pipeline [resolve db query1 key1 message1;
                     resolve db query2 key2 message2] s).1 = Normal Continue ->
      req (run_pipeline [resolve db query1 key1 message1;
                         resolve db query2 key2 message2] s).2
      = req (run_pipeline [resolve db query2 key2 message2;
                           resolve db query1 key1 message1] s).2).
Proof.
  intros H1 H2 Hne. simpl. rewrite !(resolve_run _ _ _ _ s).
  destruct (context (req s)) as [c|] eqn:Hc.
  - destruct (exec db (query1 (req s))) as [v1|e1] eqn:E1;
      destruct (exec db (query2 (req s))) as [v2|e2] eqn:E2; cbv beta iota.
    + rewrite !resolve_run. simpl.
      rewrite (H2 (req s) (set_context (Some (<[key1:=v1]> c)) (req s)) eq_refl), E2.
      rewrite (H1 (req s) (set_context (Some (<[key2:=v2]> c)) (req s)) eq_refl), E1.
      simpl. split; [done|]. intros _. by rewrite insert_insert_ne.
    + rewrite !resolve_run. simpl.
      rewrite (H2 (req s) (set_context (Some (<[key1:=v1]> c)) (req s)) eq_refl), E2.
      simpl. split; [done|]. discriminate.
    + rewrite !resolve_run. simpl.
      rewrite (H1 (req s) (set_context (Some (<[key2:=v2]> c)) (req s)) eq_refl), E1.
      simpl. split; [done|]. discriminate.
    + simpl. split; [done|]. discriminate.
  - destruct (exec db (query1 (req s))) as [v1|e1] eqn:E1;
      destruct (exec db (query2 (req s))) as [v2|e2] eqn:E2; simpl;
      (split; [done|discriminate]).
Qed.

(** X7. Two resolution handlers chained in either order: the chain reaches
    its end in one order exactly when it does in the other, and it then leaves
    the same request. *)
Theorem resolution_order_irrelevant db (s : St) :
  (((run_pipeline [processArticleParam db; processRoleParam db] s).1 = Normal Continue
    <-> (run_pipeline [processRoleParam db; processArticleParam db] s).1
        = Normal Continue)
   /\ ((run_pipeline [processArticleParam db; processRoleParam db] s).1
       = Normal Continue ->
       req (run_pipeline [processArticleParam db; processRoleParam db] s).2
       = req (run_pipeline [processRoleParam db; processArticleParam db] s).2))
  /\ (((run_pipeline [processArticleParam db; processUserParam db] s).1
       = Normal Continue
       <-> (run_pipeline [processUserParam db; processArticleParam db] s).1
           = Normal Continue)
      /\ ((run_pipeline [processArticleParam db; processUserParam db] s).1
          = Normal Continue ->
          req (run_pipeline [processArticleParam db; processUserParam db] s).2
          = req (run_pipeline [processUserParam db; processArticleParam db] s).2))
  /\ (((run_pipeline [processRoleParam db; processUserParam db] s).1 = Normal Continue
       <-> (run_pipeline [processUserParam db; processRoleParam db] s).1
           = Normal Continue)
      /\ ((run_pipeline [processRoleParam db; processUserParam db] s).1
          = Normal Continue ->
          req (run_pipeline [processRoleParam db; processUserParam db] s).2
          = req (run_pipeline [processUserParam db; processRoleParam db] s).2)).
Proof.
  rewrite processArticleParam_resolve, processRoleParam_resolve,
    processUserParam_resolve.
  split; [|split];
    apply resolve_chain_swap;
    auto using article_query_params, role_query_params, user_by_id_query_params;
    discriminate.
Qed.

(** X8. A resolution handler that runs on a request for which [init] has not
    run answers 404 with its message whatever the database holds: the
    assignment to [req.context] throws inside the [try]. *)
Theorem resolution_needs_init db (s : St) :
  context (req s) = None ->
  processArticleParam db s
  = (Normal (Terminate 404 "The article does not exist."),
     {| req := req s;
        trace := trace s ++ [EvQuery (article_query (req s)); EvStatus 404;
                             EvJson "The article does not exist."] |})
  /\ processRoleParam db s
     = (Normal (Terminate 404 "The role does not exist."),
        {| req := req s;
           trace := trace s ++ [EvQuery (role_query (req s)); EvStatus 404;
                                EvJson "The role does not exist."] |})
  /\ processUserParam db s
     = (Normal (Terminate 404 "The user does not exist."),
        {| req := req s;
           trace := trace s ++ [EvQuery (user_by_id_query (req s)); EvStatus 404;
                                EvJson "The user does not exist."] |}).
Proof.
  intros Hc.
  assert (Hgen : forall query key message,
            resolve db query key message s
            = (Normal (Terminate 404 message),
               {| req := req s;
                  trace := trace s ++ [EvQuery (query (req s)); EvStatus 404;
                                       EvJson message] |})).
  { intros query key message.
    destruct (exec db (query (req s))) as [v|e] eqn:Hq.
    - by eapply resolve_no_context.
    - by eapply resolve_rejected. }
  rewrite processArticleParam_resolve, processRoleParam_resolve,
    processUserParam_resolve.
  repeat split; apply Hgen.
Qed.

Lemma resolution_needs_init_witness :
  List.find (matches (id_filter (req (Sample.alice_at "/articles/a1" (Some "a1")))))
    (collection Sample.db Article) = Some Sample.hello
  /\ processArticleParam Sample.db (Sample.alice_at "/articles/a1" (Some "a1"))
     = (Normal (Terminate 404 "The article does not exist."),
        {| req := req (Sample.alice_at "/articles/a1" (Some "a1"));
           trace := [EvQuery (article_query
                                (req (Sample.alice_at "/articles/a1" (Some "a1"))));
                     EvStatus 404; EvJson "The article does not exist."] |}).
Proof.
  split; [reflexivity|].
  apply (proj1 (resolution_needs_init Sample.db
                  (Sample.alice_at "/articles/a1" (Some "a1")) eq_refl)).
Defined.

Lemma resolution_order_irrelevant_witness :
  req (run_pipeline [processRoleParam Sample.twin_db; processUserParam Sample.twin_db]
         (Sample.ready "/users/u1" (Some "u1"))).2
  = req (run_pipeline [processUserParam Sample.twin_db; processRoleParam Sample.twin_db]
           (Sample.ready "/users/u1" (Some "u1"))).2.
Proof.
  apply (proj2 (proj2 (proj2 (resolution_order_irrelevant Sample.twin_db
                                (Sample.ready "/users/u1" (Some "u1")))))).
  vm_compute. reflexivity.
Defined.

(** ** The authorization stage, from the outcome *)

(** X9. [can] calls [next()] exactly when the permissions of the caller were
    obtained and the engine decided [Allowed] on them and the request at hand,
    and it answers 403 exactly when they were obtained and the engine decided
    [Denied]: no request passes without a decision in its favour. *)
Theorem can_outcome_reflects_decision permissions policies action entity (s : St) :
  ((can permissions policies action entity s).1 = Normal Continue
   <-> exists perms,
         permissions_read permissions (req s) = Normal perms
         /\ authorize action entity perms policies (req s) = Normal Allowed)
  /\ ((can permissions policies action entity s).1
      = Normal (Terminate 403 "You are not authorized to perform this action.")
      <-> exists perms,
            permissions_read permissions (req s) = Normal perms
            /\ authorize action entity perms policies (req s) = Normal Denied).
Proof.
  destruct (permissions_read permissions (req s)) as [perms|e] eqn:Hr.
  - rewrite (can_read_settled _ _ _ _ _ _ Hr).
    destruct (authorize action entity perms policies (req s)) as [[| | |]|e] eqn:Ha;
      simpl; split; split;
      try discriminate; try (intros _; by eauto);
      intros (perms' & [= <-] & H); congruence.
  - destruct (can_read_fault permissions policies action entity s e Hr)
      as (pre & _ & ->).
    simpl. split; split; try discriminate; intros (perms' & H & _); discriminate.
Qed.

(** X10. When the permissions of the caller cannot be read, because
    [req.user] is missing or [null] or because the permission source fails,
    [can] answers 500, logs the exception, and the engine is not called. *)
Theorem can_without_permissions permissions policies action entity (s : St) e :
  permissions_read permissions (req s) = Throw e ->
  (can permissions policies action entity s).1
  = Normal (Terminate 500 "Sorry :( Something bad happened.")
  /\ EvConsoleLog e ∈ emitted s (can permissions policies action entity s)
  /\ Forall (fun ev => is_engine_call ev = false)
       (emitted s (can permissions policies action entity s)).
Proof.
  intros Hr.
  destruct (can_read_fault permissions policies action entity s e Hr)
    as (pre & Hpre & ->).
  rewrite emitted_app. split; [done|].
  destruct Hpre as [-> | ->]; simpl; split.
  - apply list_elem_of_here.
  - by repeat constructor.
  - apply list_elem_of_further, list_elem_of_here.
  - by repeat constructor.
Qed.

Lemma can_without_permissions_witness :
  (can Sample.permissions_of Sample.registry "edit" "article"
     (start (Sample.request "/articles/a1" (Some "alice") (Some "a1")))).1
  = Normal (Terminate 500 "Sorry :( Something bad happened.")
  /\ EvConsoleLog (TypeError "req.user is undefined")
     ∈ emitted (start (Sample.request "/articles/a1" (Some "alice") (Some "a1")))
         (can Sample.permissions_of Sample.registry "edit" "article"
            (start (Sample.request "/articles/a1" (Some "alice") (Some "a1"))))
  /\ Forall (fun ev => is_engine_call ev = false)
       (emitted (start (Sample.request "/articles/a1" (Some "alice") (Some "a1")))
          (can Sample.permissions_of Sample.registry "edit" "article"
             (start (Sample.request "/articles/a1" (Some "alice") (Some "a1"))))).
Proof.
  apply (can_without_permissions Sample.permissions_of Sample.registry
           "edit" "article"
           (start (Sample.request "/articles/a1" (Some "alice") (Some "a1")))
           (TypeError "req.user is undefined")).
  reflexivity.
Defined.

(** ** Logging *)

Lemma resolve_no_log db query key message (s : St) :
  Forall (fun e => is_log e = false) (emitted s (resolve db query key message s)).
Proof.
  rewrite resolve_run.
  destruct (exec db (query (req s))); destruct (context (req s));
    rewrite emitted_app; by repeat constructor.
Qed.

(** X11. Of the handlers only [can] writes to the console, and it does so
    exactly when it answers 500; [authenticate] and the resolution handlers
    drop the exception they catch without a trace in the log. *)
Theorem only_can_logs db decode permissions policies action entity (s : St) :
  Forall (fun e => is_log e = false) (emitted s (init s))
  /\ Forall (fun e => is_log e = false) (emitted s (authenticate db decode s))
  /\ Forall (fun e => is_log e = false) (emitted s (processArticleParam db s))
  /\ Forall (fun e => is_log e = false) (emitted s (processRoleParam db s))
  /\ Forall (fun e => is_log e = false) (emitted s (processUserParam db s))
  /\ ((exists e, EvConsoleLog e ∈ emitted s (can permissions policies action entity s))
      <-> (can permissions policies action entity s).1
          = Normal (Terminate 500 "Sorry :( Something bad happened.")).
Proof.
  split; [rewrite init_run, emitted_app; by repeat constructor|].
  split.
  { destruct (authenticate_cases db decode s)
      as [[_ ->] | [(e & _ & _ & ->) | [(u & e & _ & _ & _ & ->) | (u & v & _ & _ & _ & ->)]]];
      rewrite emitted_app; by repeat constructor. }
  rewrite processArticleParam_resolve, processRoleParam_resolve,
    processUserParam_resolve.
  split; [apply resolve_no_log|]. split; [apply resolve_no_log|].
  split; [apply resolve_no_log|].
  destruct (permissions_read permissions (req s)) as [perms|e] eqn:Hr.
  - rewrite (can_read_settled _ _ _ _ _ _ Hr).
    destruct (authorize_completion _ _ _) as [[|]|e]; simpl; rewrite emitted_app.
    + split; [|discriminate]. intros [e He].
      rewrite !elem_of_cons, elem_of_nil in He.
      destruct He as [?|[?|[?|[]]]]; discriminate.
    + split; [|discriminate]. intros [e He].
      rewrite !elem_of_cons, elem_of_nil in He.
      destruct He as [?|[?|[?|[?|[]]]]]; discriminate.
    + split; [done|]. intros _. exists e.
      do 2 apply list_elem_of_further. apply list_elem_of_here.
  - destruct (can_read_fault permissions policies action entity s e Hr)
      as (pre & Hpre & ->).
    rewrite emitted_app. split; [done|]. intros _. exists e.
    destruct Hpre as [-> | ->]; simpl.
    + apply list_elem_of_here.
    + apply list_elem_of_further, list_elem_of_here.
Qed.

(** ** Handlers chained *)

(** X12. On the two public paths [authenticate] attaches no caller, so a
    stage made by [can] that follows it on such a path finds [req.user]
    undefined and answers 500, whatever the policies say. *)
Theorem can_on_public_path_500 db decode permissions policies action entity (s : St) :
  url (req s) = "/" \/ url (req s) = "/auth/login" ->
  user (req s) = VUndefined ->
  run_pipeline [authenticate db decode; can permissions policies action entity] s
  = (Normal (Terminate 500 "Sorry :( Something bad happened."),
     {| req := req s;
        trace := trace s ++ [EvNext; EvConsoleLog (TypeError "req.user is undefined");
                             EvStatus 500; EvJson "Sorry :( Something bad happened."] |}).
Proof.
  intros Hu Hn. simpl.
  rewrite authenticate_public by by apply is_public_spec.
  rewrite can_user_undefined by done. simpl. by rewrite <- app_assoc.
Qed.

Lemma can_on_public_path_500_witness :
  run_pipeline [authenticate Sample.db Sample.decode;
                can Sample.permissions_of Sample.registry "view" "article"]
    (start (Sample.request "/auth/login" (Some "alice") None))
  = (Normal (Terminate 500 "Sorry :( Something bad happened."),
     {| req := Sample.request "/auth/login" (Some "alice") None;
        trace := [EvNext; EvConsoleLog (TypeError "req.user is undefined");
                  EvStatus 500; EvJson "Sorry :( Something bad happened."] |}).
Proof.
  apply (can_on_public_path_500 Sample.db Sample.decode Sample.permissions_of
           Sample.registry "view" "article"
           (start (Sample.request "/auth/login" (Some "alice") None))).
  - right. reflexivity.
  - reflexivity.
Defined.

(** The query of [processRoleParam] settles to the first role with the id,
    and rejects when there is none or when the lookup fails. *)
Lemma exec_role_query db (r : Request) :
  exec db (role_query r)
  = match fault db Role (id_filter r) with
    | Some e => Throw e
    | None =>
        match List.find (matches (id_filter r)) (collection db Role) with
        | Some d => Normal (VObj d)
        | None => Throw DocumentNotFoundError
        end
    end.
Proof.
  unfold exec, role_query, orFail, findOne, lookup_doc; simpl.
  destruct (fault db Role _); [done|]. by destruct (List.find _ _).
Qed.

(** X13. [processRoleParam] calls [next()] exactly when the request has a
    context, the lookup does not fail and a stored role has the id of the
    route; the context then holds, under "role", the first such role as it is
    stored, and its other keys are as before. *)
Theorem role_resolved_iff db (s : St) :
  ((processRoleParam db s).1 = Normal Continue
   <-> exists (c d : Doc),
         context (req s) = Some c
         /\ fault db Role (id_filter (req s)) = None
         /\ List.find (matches (id_filter (req s))) (collection db Role) = Some d)
  /\ (forall (c d : Doc),
        context (req s) = Some c ->
        fault db Role (id_filter (req s)) = None ->
        List.find (matches (id_filter (req s))) (collection db Role) = Some d ->
        req (processRoleParam db s).2
        = set_context (Some (<["role" := VObj d]> c)) (req s)).
Proof.
  rewrite processRoleParam_resolve, resolve_run, exec_role_query.
  destruct (fault db Role (id_filter (req s))) as [e|] eqn:Hf.
  - split; [|by intros c d _ [=]]. simpl.
    split; [discriminate|]. by intros (c & d & _ & [=] & _).
  - destruct (List.find _ _) as [d|] eqn:Hd.
    + destruct (context (req s)) as [c|] eqn:Hc; simpl.
      * split; [split; eauto|]. by intros c' d' [= <-] _ [= <-].
      * split; [|by intros c' d' [=]].
        split; [discriminate|]. by intros (c' & d' & [=] & _).
    + split; [|by intros c d _ _ [=]]. simpl.
      destruct (context (req s)); (split; [discriminate|]);
        by intros (c' & d' & _ & _ & [=]).
Qed.

Lemma role_resolved_iff_witness :
  req (processRoleParam Sample.db (Sample.ready "/roles/r1" (Some "r1"))).2
  = set_context (Some (<["role" := VObj Sample.admin_role]> ∅))
      (req (Sample.ready "/roles/r1" (Some "r1"))).
Proof.
  apply (proj2 (role_resolved_iff Sample.db (Sample.ready "/roles/r1" (Some "r1")))
           ∅ Sample.admin_role); reflexivity.
Defined.

(** X14. The chain [init], [authenticate], [processArticleParam], [can] on a
    request off the public paths whose token decodes, whose user and article
    are found and whose permissions are obtained: the outcome is that of the
    engine, asked with these permissions and with the request that carries
    the caller as [req.user] and the article, alone, in [req.context]; what
    the request had as user or context before does not enter. *)
Theorem chain_decides_on_resolved_request db decode permissions policies
    action entity (r0 : Request) (username : string) (du : Doc)
    (a perms : Value) :
  url r0 <> "/" -> url r0 <> "/auth/login" ->
  decode (set_context (Some ∅) r0) = Normal username ->
  exec db (user_query username) = Normal (VObj du) ->
  exec db (article_query r0) = Normal a ->
  permissions du = Normal perms ->
  (run_pipeline [init; authenticate db decode; processArticleParam db;
                 can permissions policies action entity] (start r0)).1
  = match authorize action entity perms policies
            (set_context (Some (<["article" := a]> ∅)) (set_user (VObj du) r0)) with
    | Normal Allowed => Normal Continue
    | Normal Denied =>
        Normal (Terminate 403 "You are not authorized to perform this action.")
    | _ => Normal (Terminate 500 "Sorry :( Something bad happened.")
    end
  /\ req (run_pipeline [init; authenticate db decode; processArticleParam db;
                        can permissions policies action entity] (start r0)).2
     = set_context (Some (<["article" := a]> ∅)) (set_user (VObj du) r0).
Proof.
  intros H1 H2 Hd Hu Ha Hp.
  cbn [run_pipeline]. rewrite init_run. cbn [start req trace app].
  rewrite (authenticate_lookup_settled db decode _ username (VObj du));
    [|by apply not_public_spec|done|done].
  rewrite processArticleParam_resolve.
  rewrite (resolve_settled db article_query "article" msg_no_article _ a ∅);
    [|exact Ha|done].
  rewrite (can_with_permissions permissions policies action entity _ du perms);
    [|done|done].
  cbn [req trace].
  destruct (authorize _ _ _ _ _) as [[| | |]|e]; by split.
Qed.

Lemma chain_decides_on_resolved_request_witness :
  (run_pipeline [init; authenticate Sample.db Sample.decode;
                 processArticleParam Sample.db;
                 can Sample.permissions_of Sample.registry "delete" "article"]
     (start (Sample.request "/articles/a1" (Some "alice") (Some "a1")))).1
  = Normal (Terminate 403 "You are not authorized to perform this action.")
  /\ req (run_pipeline [init; authenticate Sample.db Sample.decode;
                        processArticleParam Sample.db;
                        can Sample.permissions_of Sample.registry "delete" "article"]
            (start (Sample.request "/articles/a1" (Some "alice") (Some "a1")))).2
     = set_context
         (Some (<["article" :=
                    VObj (<["owner" := VObj (delete "password" Sample.alice)]>
                            Sample.hello)]> ∅))
         (set_user (VObj Sample.alice)
            (Sample.request "/articles/a1" (Some "alice") (Some "a1"))).
Proof.
  apply (chain_decides_on_resolved_request Sample.db Sample.decode
           Sample.permissions_of Sample.registry "delete" "article"
           (Sample.request "/articles/a1" (Some "alice") (Some "a1"))
           "alice" Sample.alice
           (VObj (<["owner" := VObj (delete "password" Sample.alice)]> Sample.hello))
           (VArr [VStr "r1"; VStr "r9"])).
  - simpl. discriminate.
  - simpl. discriminate.
  - reflexivity.
  - vm_compute. reflexivity.
  - vm_compute. reflexivity.
  - reflexivity.
Defined.

(** ** Lookups *)

(** X15. [authenticate] awaits no query on a public path or when the token
    does not decode; for a token that decodes off the public paths it awaits
    one, [User.findOne({ username })], which asks for no related document
    and does not fail on no match. *)
Theorem authenticate_queries db decode (s : St) :
  (url (req s) = "/" \/ url (req s) = "/auth/login"
   \/ (exists e, decode (req s) = Throw e) ->
     Forall (fun ev => is_query ev = false) (emitted s (authenticate db decode s)))
  /\ (forall username,
        url (req s) <> "/" -> url (req s) <> "/auth/login" ->
        decode (req s) = Normal username ->
        List.filter is_query (emitted s (authenticate db decode s))
        = [EvQuery {| q_model := User;
                      q_filter := {| f_field := "username";
                                     f_value := Some username |};
                      q_populate := [];
                      q_orFail := false |}]).
Proof.
  destruct (authenticate_cases db decode s)
    as [[Hp ->] | [(e & Hp & Hd & ->)
                  | [(u & e & Hp & Hd & _ & ->) | (u & v & Hp & Hd & _ & ->)]]];
    rewrite emitted_app.
  - split; [intros _; by repeat constructor|].
    intros username H1 H2 _. apply is_public_spec in Hp. tauto.
  - split; [intros _; by repeat constructor|].
    intros username _ _ Hd'. congruence.
  - apply not_public_spec in Hp as [H1 H2]. split.
    + intros [?|[?|[e' He']]]; congruence.
    + intros username _ _ Hd'. rewrite Hd in Hd'. by injection Hd' as <-.
  - apply not_public_spec in Hp as [H1 H2]. split.
    + intros [?|[?|[e' He']]]; congruence.
    + intros username _ _ Hd'. rewrite Hd in Hd'. by injection Hd' as <-.
Qed.

Lemma authenticate_queries_witness :
  Forall (fun ev => is_query ev = false)
    (emitted (start (Sample.request "/articles/a1" None (Some "a1")))
       (authenticate Sample.db Sample.decode
          (start (Sample.request "/articles/a1" None (Some "a1")))))
  /\ List.filter is_query
       (emitted (start (Sample.request "/articles/a1" (Some "alice") (Some "a1")))
          (authenticate Sample.db Sample.decode
             (start (Sample.request "/articles/a1" (Some "alice") (Some "a1")))))
     = [EvQuery {| q_model := User;
                   q_filter := {| f_field := "username"; f_value := Some "alice" |};
                   q_populate := [];
                   q_orFail := false |}].
Proof.
  split.
  - apply (proj1 (authenticate_queries Sample.db Sample.decode
                    (start (Sample.request "/articles/a1" None (Some "a1"))))).
    right; right. exists (TokenError "jwt must be provided"). reflexivity.
  - apply (proj2 (authenticate_queries Sample.db Sample.decode
                    (start (Sample.request "/articles/a1" (Some "alice") (Some "a1"))))
             "alice").
    + simpl. discriminate.
    + simpl. discriminate.
    + reflexivity.
Defined.
